(** * winstartupreg: Windows startup registry entries

    A shallow embedding of [winstartupreg.go] together with a small model of
    the parts of the operating system the package talks to (the registry, the
    filesystem), and the properties of the package's five operations.

    Layout: the Go values the package observes ([error], strings), the model of
    the outside world ([World]) with the library calls the package makes
    ([filepath.Abs], [os.Stat], [registry.OpenKey], ...), then the package
    itself, function by function, then the theorems. *)

From Stdlib Require Import ZArith Lia.
From stdpp Require Import gmap strings list fin_maps.

(** ** Go's [error] values

    The package builds errors with [fmt.Errorf] only, and receives errors from
    the operating system through [filepath], [os] and [registry].  It looks at
    an error in three ways: [err == nil], [err.Error()], and
    [os.IsNotExist(err)]; with [%w] it keeps the operand inside the new error.

    - [ExtError text not_exist]: an error made outside the package; [text] is
      what its [Error()] returns, [not_exist] is what [os.IsNotExist] says of it.
    - [errorString s]: what [fmt.Errorf] returns for a format without [%w].
    - [wrapError msg err]: what [fmt.Errorf] returns for a format with one
      [%w]: the formatted message and the wrapped operand.

    A Go [error] that may be [nil] is an [option error]. *)

Inductive error : Type :=
| ExtError (text : string) (not_exist : bool)
| errorString (s : string)
| wrapError (msg : string) (err : error).

(** [err.Error()] *)
Definition Error (e : error) : string :=
  match e with
  | ExtError text _ => text
  | errorString s => s
  | wrapError msg _ => msg
  end.

(** [errors.Unwrap(err)] *)
Definition Unwrap (e : error) : option error :=
  match e with
  | wrapError _ err => Some err
  | _ => None
  end.

Module fmt.

(** [fmt.Errorf(format, args...)] for a format without [%w]; [s] is the
    formatted text. *)
Definition Errorf (s : string) : error := errorString s.

(** [fmt.Errorf(prefix + "%w", err)]: the formats of the package that wrap
    an error all end in [%w]. *)
Definition Errorf_w (prefix : string) (err : error) : error :=
  wrapError (prefix +:+ Error err) err.

End fmt.

Module strings.

(** [strings.Contains(s, substr)]: [substr] occurs somewhere in [s]. *)
Fixpoint Contains (s substr : string) : bool :=
  String.prefix substr s ||
  match s with
  | EmptyString => false
  | String _ s' => Contains s' substr
  end.

End strings.

(** ** The world outside the package

    The registry is a store of keys, each a map from value names to typed
    data; the filesystem is seen through [filepath.Abs] and [os.Stat] only.
    What the model takes for granted:
    - a call fails either for a reason the store shows (the key or the value is
      missing, the value is not a string) or because the system refuses it
      ([reg_fault]: access denied, quota, ...); reading a value through an open
      key fails for the first kind of reason only;
    - a call that fails changes nothing;
    - the text of a system error is the one the system renders for its code
      ([sys_message]); it depends on the language of the system's messages;
    - [k.DeleteValue(name)] converts the name with [syscall.StringToUTF16Ptr],
      which panics on a NUL byte: [RemoveStartupEntry] and
      [SafeRemoveStartupEntry] then do not return.  Their embeddings give what
      the calls return when they do; [RemoveStartupEntry_panics] and
      [SafeRemoveStartupEntry_panics] say when they do not;
    - value names are compared as they are written;
    - nobody else changes the registry between two calls, and closing a key
      has no effect that the package can see. *)

(** The data of a registry value: a string ([REG_SZ]), an expandable string
    ([REG_EXPAND_SZ]), or a value of another type ([REG_DWORD], [REG_BINARY],
    ...), of which only the type number matters here. *)
Inductive Value : Type :=
| SZ (s : string)
| EXPAND_SZ (s : string)
| OtherType (typ : Z).

(** The registry calls that can fail for a reason the store does not show
    (access denied, quota, ...). *)
Inductive RegOp : Type :=
| OpOpen (root : Z) (path : string) (access : Z)
| OpSetValue (root : Z) (path : string) (name : string) (value : string)
| OpDeleteValue (root : Z) (path : string) (name : string)
| OpReadValueNames (root : Z) (path : string).

(** - [fs_abs]: what [filepath.Abs] returns for a path (it depends on the
      working directory);
    - [fs_exists]: whether there is a file at a path;
    - [fs_stat]: the error of [os.Stat] for a path, [None] when the file is
      there and can be examined; a file that is not there gives a not-exist
      error or, when the path cannot be examined, another error;
    - [sys_message]: the text the system renders for an error code;
    - [reg_keys]: the registry keys that exist, by root key and sub-path, each
      with its values by name;
    - [reg_fault]: the calls the system refuses, and with which error. *)
Record World : Type := mkWorld {
  fs_abs : string -> string + error;
  fs_exists : string -> bool;
  fs_stat : string -> option error;
  sys_message : Z -> string;
  reg_keys : gmap (Z * string) (gmap string Value);
  reg_fault : RegOp -> option error;
}.

Definition with_keys (w : World) (keys : gmap (Z * string) (gmap string Value)) : World :=
  {| fs_abs := fs_abs w; fs_exists := fs_exists w; fs_stat := fs_stat w;
     sys_message := sys_message w; reg_keys := keys; reg_fault := reg_fault w |}.

(** The value called [name] under the key [root\path], if the key and the
    value exist. *)
Definition value_at (w : World) (root : Z) (path name : string) : option Value :=
  match reg_keys w !! (root, path) with
  | Some values => values !! name
  | None => None
  end.

Module filepath.

(** [filepath.Abs(path)] *)
Definition Abs (w : World) (path : string) : string + error := fs_abs w path.

End filepath.

Module os.

(** [os.Stat(name)], of which the package keeps the error only. *)
Definition Stat (w : World) (name : string) : option error := fs_stat w name.

(** [os.IsNotExist(err)]: false for [nil]; it does not look inside an error
    wrapped by [fmt.Errorf]. *)
Definition IsNotExist (err : option error) : bool :=
  match err with
  | Some (ExtError _ not_exist) => not_exist
  | _ => false
  end.

End os.

Module registry.

(** [registry.Key] is a handle; the predefined root keys are constants. *)
Definition CURRENT_USER : Z := 0x80000001.
Definition LOCAL_MACHINE : Z := 0x80000002.

(** Access rights. *)
Definition QUERY_VALUE : Z := 0x1.
Definition ALL_ACCESS : Z := 0xf003f.

(** [ERROR_FILE_NOT_FOUND] (code 2), which is also [registry.ErrNotExist],
    and [ERROR_INVALID_HANDLE] (code 6), each with the text the system renders
    for it. *)
Definition ERROR_FILE_NOT_FOUND (w : World) : error :=
  ExtError (sys_message w 2) true.
Definition ErrNotExist (w : World) : error := ERROR_FILE_NOT_FOUND w.
Definition ERROR_INVALID_HANDLE (w : World) : error :=
  ExtError (sys_message w 6) false.
Definition ErrUnexpectedType : error := errorString "unexpected key value type".

(** An open key: which key it is, and the access it was opened with. *)
Record Handle : Type := mkHandle {
  h_root : Z;
  h_path : string;
  h_access : Z;
}.

(** [registry.OpenKey(k, path, access)] *)
Definition OpenKey (w : World) (k : Z) (path : string) (access : Z) : Handle + error :=
  match reg_fault w (OpOpen k path access) with
  | Some err => inr err
  | None =>
    match reg_keys w !! (k, path) with
    | None => inr (ERROR_FILE_NOT_FOUND w)
    | Some _ => inl {| h_root := k; h_path := path; h_access := access |}
    end
  end.

(** [k.SetStringValue(name, value)]: creates the value or replaces it. *)
Definition SetStringValue (k : Handle) (name value : string) (w : World)
  : World * option error :=
  match reg_fault w (OpSetValue (h_root k) (h_path k) name value) with
  | Some err => (w, Some err)
  | None =>
    match reg_keys w !! (h_root k, h_path k) with
    | None => (w, Some (ERROR_INVALID_HANDLE w))
    | Some values =>
      (with_keys w (<[(h_root k, h_path k) := <[name := SZ value]> values]> (reg_keys w)), None)
    end
  end.

(** A string has a NUL byte. *)
Fixpoint has_NUL (s : string) : bool :=
  match s with
  | EmptyString => false
  | String c s' => Ascii.eqb c Ascii.zero || has_NUL s'
  end.

(** [k.DeleteValue(name)] does not return when the name has a NUL byte:
    [syscall.StringToUTF16Ptr] panics. *)
Definition DeleteValue_panics (k : Handle) (name : string) : bool := has_NUL name.

(** [k.DeleteValue(name)], when it returns: [ERROR_FILE_NOT_FOUND] when there
    is no such value. *)
Definition DeleteValue (k : Handle) (name : string) (w : World)
  : World * option error :=
  match reg_fault w (OpDeleteValue (h_root k) (h_path k) name) with
  | Some err => (w, Some err)
  | None =>
    match reg_keys w !! (h_root k, h_path k) with
    | None => (w, Some (ERROR_INVALID_HANDLE w))
    | Some values =>
      match values !! name with
      | None => (w, Some (ERROR_FILE_NOT_FOUND w))
      | Some _ =>
        (with_keys w (<[(h_root k, h_path k) := delete name values]> (reg_keys w)), None)
      end
    end
  end.

(** [k.ReadValueNames(0)]: the names of all the values of the key. *)
Definition ReadValueNames (k : Handle) (w : World) : list string + error :=
  match reg_fault w (OpReadValueNames (h_root k) (h_path k)) with
  | Some err => inr err
  | None =>
    match reg_keys w !! (h_root k, h_path k) with
    | None => inr (ERROR_INVALID_HANDLE w)
    | Some values => inl (map_to_list values).*1
    end
  end.

(** [k.GetStringValue(name)], without the value type it also returns:
    [ErrNotExist] when there is no such value, [ErrUnexpectedType] when the
    value is neither [SZ] nor [EXPAND_SZ]. *)
Definition GetStringValue (k : Handle) (name : string) (w : World) : string + error :=
  match value_at w (h_root k) (h_path k) name with
  | None => inr (ErrNotExist w)
  | Some (SZ s) => inl s
  | Some (EXPAND_SZ s) => inl s
  | Some (OtherType _) => inr ErrUnexpectedType
  end.

End registry.

(** ** The package *)

(** [type StartupRegistryType int], with its four constants ([iota]). *)
Definition StartupRegistryType : Type := Z.

Definition CurrentUserRun : StartupRegistryType := 0%Z.
Definition CurrentUserRunOnce : StartupRegistryType := 1%Z.
Definition AllUsersRun : StartupRegistryType := 2%Z.
Definition AllUsersRunOnce : StartupRegistryType := 3%Z.

Record StartupEntry : Type := mkStartupEntry {
  Name : string;
  Command : string;
}.

(** [getRegistryPath]: the sub-path and the root key of a startup type. *)
Definition getRegistryPath (registryType : StartupRegistryType) : string * Z :=
  if (registryType =? CurrentUserRun)%Z then
    ("Software\Microsoft\Windows\CurrentVersion\Run", registry.CURRENT_USER)
  else if (registryType =? CurrentUserRunOnce)%Z then
    ("Software\Microsoft\Windows\CurrentVersion\RunOnce", registry.CURRENT_USER)
  else if (registryType =? AllUsersRun)%Z then
    ("SOFTWARE\Microsoft\Windows\CurrentVersion\Run", registry.LOCAL_MACHINE)
  else if (registryType =? AllUsersRunOnce)%Z then
    ("SOFTWARE\Microsoft\Windows\CurrentVersion\RunOnce", registry.LOCAL_MACHINE)
  else
    ("Software\Microsoft\Windows\CurrentVersion\Run", registry.CURRENT_USER).

(** [AddStartupEntry]: the world after the call and the error returned
    ([None] is [nil]). *)
Definition AddStartupEntry (entry : StartupEntry) (registryType : StartupRegistryType)
  (w : World) : World * option error :=
  if String.eqb (Name entry) "" then
    (w, Some (fmt.Errorf "entry name cannot be empty"))
  else
    match filepath.Abs w (Command entry) with
    | inr err => (w, Some (fmt.Errorf_w "invalid command path: " err))
    | inl fullPath =>
      if os.IsNotExist (os.Stat w fullPath) then
        (w, Some (fmt.Errorf ("executable does not exist: " +:+ fullPath)))
      else
        let '(keyPath, rootKey) := getRegistryPath registryType in
        match registry.OpenKey w rootKey keyPath registry.ALL_ACCESS with
        | inr err => (w, Some (fmt.Errorf_w "failed to open registry key: " err))
        | inl k =>
          match registry.SetStringValue k (Name entry) fullPath w with
          | (w', Some err) => (w', Some (fmt.Errorf_w "failed to set registry value: " err))
          | (w', None) => (w', None)
          end
        end
    end.

(** [RemoveStartupEntry] *)
Definition RemoveStartupEntry (entryName : string) (registryType : StartupRegistryType)
  (w : World) : World * option error :=
  let '(keyPath, rootKey) := getRegistryPath registryType in
  match registry.OpenKey w rootKey keyPath registry.ALL_ACCESS with
  | inr err => (w, Some (fmt.Errorf_w "failed to open registry key: " err))
  | inl k =>
    match registry.DeleteValue k entryName w with
    | (w', Some err) =>
      if strings.Contains (Error err) "The system cannot find the file specified" then
        (w', Some (fmt.Errorf ("startup entry '" +:+ entryName +:+ "' not found in " +:+ keyPath)))
      else
        (w', Some (fmt.Errorf_w "failed to delete registry value: " err))
    | (w', None) => (w', None)
    end
  end.

(** The four startup types, in the order both loops go through them. *)
Definition registryTypes : list StartupRegistryType :=
  [CurrentUserRun; CurrentUserRunOnce; AllUsersRun; AllUsersRunOnce].

(** The state of the loop of [SafeRemoveStartupEntry]: the world, [lastErr]
    and [removedFromAny]. *)
Definition safeRemoveStep (entryName : string)
  (st : World * option error * bool) (registryType : StartupRegistryType)
  : World * option error * bool :=
  let '(w, lastErr, removedFromAny) := st in
  match RemoveStartupEntry entryName registryType w with
  | (w', None) => (w', lastErr, true)
  | (w', Some err) => (w', Some err, removedFromAny)
  end.

(** [SafeRemoveStartupEntry].  [%w] with a [nil] operand prints
    [%!w(<nil>)] and wraps nothing. *)
Definition SafeRemoveStartupEntry (entryName : string) (w : World) : World * option error :=
  let '(w', lastErr, removedFromAny) :=
    fold_left (safeRemoveStep entryName) registryTypes (w, None, false) in
  if negb removedFromAny then
    let prefix := "failed to remove startup entry '" +:+ entryName +:+ "' from any location: " in
    (w', Some (match lastErr with
               | Some err => fmt.Errorf_w prefix err
               | None => fmt.Errorf (prefix +:+ "%!w(<nil>)")
               end))
  else
    (w', None).

(** The body of the loop of [ListStartupEntries]: a value that cannot be read
    as a string leaves [entries] as it is. *)
Definition listStep (k : registry.Handle) (w : World)
  (entries : gmap string string) (name : string) : gmap string string :=
  match registry.GetStringValue k name w with
  | inl value => <[name := value]> entries
  | inr _ => entries
  end.

(** [ListStartupEntries]: the map returned and the error.  The [nil] map
    returned with an error is the empty map. *)
Definition ListStartupEntries (registryType : StartupRegistryType) (w : World)
  : gmap string string * option error :=
  let '(keyPath, rootKey) := getRegistryPath registryType in
  match registry.OpenKey w rootKey keyPath registry.QUERY_VALUE with
  | inr err => (∅, Some (fmt.Errorf_w "failed to open registry key: " err))
  | inl k =>
    match registry.ReadValueNames k w with
    | inr err => (∅, Some (fmt.Errorf_w "failed to read value names: " err))
    | inl valueNames => (fold_left (listStep k w) valueNames ∅, None)
    end
  end.

(** The body of the loop of [ListAllStartupEntries]. *)
Definition listAllStep (w : World)
  (allEntries : gmap Z (gmap string string)) (registryType : StartupRegistryType)
  : gmap Z (gmap string string) :=
  match ListStartupEntries registryType w with
  | (entries, None) =>
    if (0 <? size entries)%nat then <[registryType := entries]> allEntries else allEntries
  | (_, Some _) => allEntries
  end.

(** [ListAllStartupEntries] *)
Definition ListAllStartupEntries (w : World)
  : gmap Z (gmap string string) * option error :=
  (fold_left (listAllStep w) registryTypes ∅, None).

(** ** The errors of the package, under the names of the specification *)

Definition ValidationError : error := errorString "entry name cannot be empty".

Definition PathError (err : error) : error :=
  wrapError ("invalid command path: " +:+ Error err) err.

(** The executable is not there. *)
Definition ExecutableNotFoundError (fullPath : string) : error :=
  errorString ("executable does not exist: " +:+ fullPath).

Definition AccessError (err : error) : error :=
  wrapError ("failed to open registry key: " +:+ Error err) err.

Definition WriteError (err : error) : error :=
  wrapError ("failed to set registry value: " +:+ Error err) err.

(** The registry value is not there. *)
Definition EntryNotFoundError (entryName keyPath : string) : error :=
  errorString ("startup entry '" +:+ entryName +:+ "' not found in " +:+ keyPath).

(** The delete failed for another reason. *)
Definition DeleteError (err : error) : error :=
  wrapError ("failed to delete registry value: " +:+ Error err) err.

Definition ReadError (err : error) : error :=
  wrapError ("failed to read value names: " +:+ Error err) err.

Definition AggregateNotFoundError (entryName : string) (lastErr : error) : error :=
  wrapError (("failed to remove startup entry '" +:+ entryName +:+ "' from any location: ")
             +:+ Error lastErr) lastErr.

(** The two kinds of [NotFoundError]. *)
Definition is_NotFoundError (e : error) : Prop :=
  (exists fullPath, e = ExecutableNotFoundError fullPath) \/
  (exists entryName keyPath, e = EntryNotFoundError entryName keyPath).

(** ** Sample worlds and entries

    A machine with the two [Run] keys and the current user's [RunOnce] key
    (the machine-wide [RunOnce] key is missing), one program on disk, one path
    that cannot be examined, and no call refused. *)

Definition sample_keys : gmap (Z * string) (gmap string Value) :=
  {[ (registry.CURRENT_USER, "Software\Microsoft\Windows\CurrentVersion\Run") :=
       {[ "Updater" := SZ "C:\Tools\updater.exe"; "Counter" := OtherType 4 ]};
     (registry.CURRENT_USER, "Software\Microsoft\Windows\CurrentVersion\RunOnce") := ∅;
     (registry.LOCAL_MACHINE, "SOFTWARE\Microsoft\Windows\CurrentVersion\Run") :=
       {[ "Agent" := EXPAND_SZ "%ProgramFiles%\agent.exe" ]} ]}.

Definition sample_abs (path : string) : string + error :=
  if String.eqb path "" then inr (ExtError "getwd: no working directory" false)
  else if String.prefix "C:\" path then inl path
  else inl ("C:\Work\" +:+ path).

(** One file on disk. *)
Definition sample_exists (path : string) : bool := String.eqb path "C:\Work\app.exe".

(** The messages of a system in English. *)
Definition english_message (code : Z) : string :=
  if (code =? 2)%Z then "The system cannot find the file specified."
  else if (code =? 5)%Z then "Access is denied."
  else if (code =? 6)%Z then "The handle is invalid."
  else "winapi error".

Definition sample_stat (path : string) : option error :=
  if String.eqb path "C:\Work\app.exe" then None
  else if String.eqb path "C:\Locked\app.exe" then Some (ExtError "Access is denied." false)
  else Some (ExtError "The system cannot find the file specified." true).

(** What [os.Stat] says agrees with what is on disk: a path it examines
    without error has a file, a path it reports as not existing has none. *)
Definition fs_coherent (w : World) : Prop :=
  forall path,
    (fs_stat w path = None -> fs_exists w path = true) /\
    (os.IsNotExist (fs_stat w path) = true -> fs_exists w path = false).

Definition no_fault (op : RegOp) : option error := None.

Definition sample_world : World :=
  {| fs_abs := sample_abs; fs_exists := sample_exists; fs_stat := sample_stat;
     sys_message := english_message;
     reg_keys := sample_keys; reg_fault := no_fault |}.

(** The same machine, where deleting a value under the current user's [Run]
    key is refused. *)
Definition delete_denied (op : RegOp) : option error :=
  match op with
  | OpDeleteValue root _ _ =>
    if (root =? registry.CURRENT_USER)%Z then Some (ExtError "Access is denied." false) else None
  | _ => None
  end.

Definition locked_world : World :=
  {| fs_abs := sample_abs; fs_exists := sample_exists; fs_stat := sample_stat;
     sys_message := english_message;
     reg_keys := sample_keys; reg_fault := delete_denied |}.

Lemma sample_world_coherent : fs_coherent sample_world.
Proof.
  intros path. cbn. unfold sample_stat, sample_exists.
  destruct (String.eqb path "C:\Work\app.exe"); [done|].
  by destruct (String.eqb path "C:\Locked\app.exe").
Qed.

Definition app_entry : StartupEntry := {| Name := "TestApp"; Command := "app.exe" |}.
Definition locked_entry : StartupEntry := {| Name := "Locked"; Command := "C:\Locked\app.exe" |}.
Definition missing_entry : StartupEntry := {| Name := "Ghost"; Command := "ghost.exe" |}.
Definition nameless_missing_entry : StartupEntry := {| Name := ""; Command := "ghost.exe" |}.

(** ** Strings *)

Lemma prefix_append (p s : string) : String.prefix p (p +:+ s) = true.
Proof.
  induction p as [|c p IH]; simpl.
  - by destruct s.
  - destruct (Ascii.ascii_dec c c) as [_|Hne]; [exact IH | by destruct Hne].
Qed.

Lemma prefix_inv (p s : string) :
  String.prefix p s = true -> exists post, s = p +:+ post.
Proof.
  revert s. induction p as [|c p IH]; intros s H.
  - by exists s.
  - destruct s as [|d s]; simpl in H; [discriminate|].
    destruct (Ascii.ascii_dec c d) as [->|_]; [|discriminate].
    destruct (IH s H) as [post ->]. by exists post.
Qed.

(** [strings.Contains] is what its name says. *)
Lemma Contains_spec (s substr : string) :
  strings.Contains s substr = true <-> exists pre post, s = pre +:+ substr +:+ post.
Proof.
  split.
  - induction s as [|c s IH]; cbn [strings.Contains]; intros H.
    + apply orb_true_iff in H as [H|H]; [|discriminate].
      apply prefix_inv in H as [post ->]. by exists "", post.
    + apply orb_true_iff in H as [H|H].
      * apply prefix_inv in H as [post ->]. by exists "", post.
      * destruct (IH H) as (pre & post & ->). by exists (String c pre), post.
  - intros (pre & post & ->). induction pre as [|c pre IH].
    + change ("" +:+ substr +:+ post) with (substr +:+ post).
      destruct (substr +:+ post) eqn:E; cbn [strings.Contains];
        rewrite <- E, prefix_append; done.
    + change (String c pre +:+ substr +:+ post) with (String c (pre +:+ substr +:+ post)).
      cbn [strings.Contains]. rewrite IH. apply orb_true_r.
Qed.

(** ** The scope resolver *)

(** C5. The scope resolver is a function of the startup type alone, defined
    on every integer: each of the four constants has its own fixed sub-path and
    root key, and every other integer gets those of [CurrentUserRun]. *)
Theorem getRegistryPath_total_with_fallback :
  getRegistryPath CurrentUserRun =
    ("Software\Microsoft\Windows\CurrentVersion\Run", registry.CURRENT_USER) /\
  getRegistryPath CurrentUserRunOnce =
    ("Software\Microsoft\Windows\CurrentVersion\RunOnce", registry.CURRENT_USER) /\
  getRegistryPath AllUsersRun =
    ("SOFTWARE\Microsoft\Windows\CurrentVersion\Run", registry.LOCAL_MACHINE) /\
  getRegistryPath AllUsersRunOnce =
    ("SOFTWARE\Microsoft\Windows\CurrentVersion\RunOnce", registry.LOCAL_MACHINE) /\
  forall registryType : StartupRegistryType,
    registryType <> CurrentUserRun -> registryType <> CurrentUserRunOnce ->
    registryType <> AllUsersRun -> registryType <> AllUsersRunOnce ->
    getRegistryPath registryType = getRegistryPath CurrentUserRun.
Proof.
  repeat split.
  intros registryType H0 H1 H2 H3. unfold getRegistryPath at 1.
  destruct (Z.eqb_spec registryType CurrentUserRun); [done|].
  destruct (Z.eqb_spec registryType CurrentUserRunOnce); [done|].
  destruct (Z.eqb_spec registryType AllUsersRun); [done|].
  destruct (Z.eqb_spec registryType AllUsersRunOnce); done.
Qed.

Lemma getRegistryPath_total_with_fallback_witness :
  getRegistryPath 7%Z = getRegistryPath CurrentUserRun /\
  getRegistryPath (-1)%Z = getRegistryPath CurrentUserRun.
Proof.
  destruct getRegistryPath_total_with_fallback as (_ & _ & _ & _ & H).
  split; apply H; unfold CurrentUserRun, CurrentUserRunOnce, AllUsersRun, AllUsersRunOnce; lia.
Defined.

(** ** Adding an entry *)

Lemma ValidationError_not_NotFoundError : ~ is_NotFoundError ValidationError.
Proof.
  intros [[fullPath H]|(entryName & keyPath & H)];
    unfold ValidationError, ExecutableNotFoundError, EntryNotFoundError in H;
    simpl in H; discriminate.
Qed.

Lemma wrapError_not_NotFoundError (msg : string) (err : error) :
  ~ is_NotFoundError (wrapError msg err).
Proof. intros [[fullPath H]|(entryName & keyPath & H)]; discriminate. Qed.

(** C3. With an empty name, [AddStartupEntry] returns the validation error
    whatever the startup type, and the world it returns is the world it was
    given: the name is checked before the registry is touched. *)
Theorem AddStartupEntry_empty_name
  (entry : StartupEntry) (registryType : StartupRegistryType) (w : World) :
  Name entry = "" ->
  AddStartupEntry entry registryType w = (w, Some ValidationError).
Proof. intros H. unfold AddStartupEntry. by rewrite H. Qed.

Lemma AddStartupEntry_empty_name_witness :
  Name nameless_missing_entry = "" /\
  AddStartupEntry nameless_missing_entry AllUsersRun sample_world
    = (sample_world, Some ValidationError).
Proof.
  split; [reflexivity|].
  apply (AddStartupEntry_empty_name nameless_missing_entry AllUsersRun sample_world).
  reflexivity.
Defined.

(** C4, as stated, fails in two ways on the sample machine.  An entry that
    has an empty name as well as a missing executable gets the validation
    error: the name is checked first.  And an entry with a name, whose
    executable is missing at a path that [os.Stat] cannot examine, gets no
    error at all: the error of [os.Stat] is not a not-exist error, and the
    value is written. *)
Lemma AddStartupEntry_missing_path_refuted :
  (filepath.Abs sample_world (Command nameless_missing_entry) = inl "C:\Work\ghost.exe" /\
   fs_exists sample_world "C:\Work\ghost.exe" = false /\
   AddStartupEntry nameless_missing_entry CurrentUserRun sample_world
     = (sample_world, Some ValidationError) /\
   ~ is_NotFoundError ValidationError) /\
  (Name locked_entry <> "" /\
   filepath.Abs sample_world (Command locked_entry) = inl "C:\Locked\app.exe" /\
   fs_exists sample_world "C:\Locked\app.exe" = false /\
   (AddStartupEntry locked_entry CurrentUserRun sample_world).2 = None /\
   value_at (AddStartupEntry locked_entry CurrentUserRun sample_world).1
     registry.CURRENT_USER "Software\Microsoft\Windows\CurrentVersion\Run" "Locked"
     = Some (SZ "C:\Locked\app.exe")).
Proof.
  split.
  - split; [reflexivity|]. split; [reflexivity|]. split; [reflexivity|].
    exact ValidationError_not_NotFoundError.
  - split; [discriminate|]. do 2 (split; [reflexivity|]).
    split; vm_compute; reflexivity.
Qed.

(** C4, amended. When the name is not empty and [os.Stat] reports the
    normalized path of the command as not existing (its error is one that
    [os.IsNotExist] recognises), [AddStartupEntry] returns the not-found error
    that names the normalized path, whatever the startup type, and the world
    it returns is the world it was given. *)
Theorem AddStartupEntry_missing_path
  (entry : StartupEntry) (registryType : StartupRegistryType) (w : World)
  (fullPath : string) :
  Name entry <> "" ->
  filepath.Abs w (Command entry) = inl fullPath ->
  os.IsNotExist (os.Stat w fullPath) = true ->
  AddStartupEntry entry registryType w = (w, Some (ExecutableNotFoundError fullPath)) /\
  is_NotFoundError (ExecutableNotFoundError fullPath).
Proof.
  intros Hname Habs Hstat. split; [|left; by exists fullPath].
  unfold AddStartupEntry.
  destruct (String.eqb_spec (Name entry) "") as [E|_]; [done|].
  by rewrite Habs, Hstat.
Qed.

Lemma AddStartupEntry_missing_path_witness :
  Name missing_entry <> "" /\
  filepath.Abs sample_world (Command missing_entry) = inl "C:\Work\ghost.exe" /\
  os.IsNotExist (os.Stat sample_world "C:\Work\ghost.exe") = true /\
  AddStartupEntry missing_entry AllUsersRunOnce sample_world
    = (sample_world, Some (ExecutableNotFoundError "C:\Work\ghost.exe")).
Proof.
  assert (Hname : Name missing_entry <> "") by discriminate.
  split; [exact Hname|]. split; [reflexivity|]. split; [reflexivity|].
  exact (proj1 (AddStartupEntry_missing_path missing_entry AllUsersRunOnce sample_world
                  "C:\Work\ghost.exe" Hname eq_refl eq_refl)).
Defined.

(** C10. When [os.Stat] fails with an error that [os.IsNotExist] does not
    recognise, [AddStartupEntry] goes on as if the file were there: it opens
    the key and sets the value, and what it returns is the outcome of these two
    calls, never the not-found error. *)
Theorem AddStartupEntry_stat_other_error
  (entry : StartupEntry) (registryType : StartupRegistryType) (w : World)
  (fullPath : string) (statErr : error) :
  Name entry <> "" ->
  filepath.Abs w (Command entry) = inl fullPath ->
  os.Stat w fullPath = Some statErr ->
  os.IsNotExist (Some statErr) = false ->
  AddStartupEntry entry registryType w =
    match registry.OpenKey w (getRegistryPath registryType).2
            (getRegistryPath registryType).1 registry.ALL_ACCESS with
    | inr err => (w, Some (AccessError err))
    | inl k =>
      match registry.SetStringValue k (Name entry) fullPath w with
      | (w', Some err) => (w', Some (WriteError err))
      | (w', None) => (w', None)
      end
    end /\
  forall e, (AddStartupEntry entry registryType w).2 = Some e -> ~ is_NotFoundError e.
Proof.
  intros Hname Habs Hstat Hother.
  assert (Hrun : AddStartupEntry entry registryType w =
    match registry.OpenKey w (getRegistryPath registryType).2
            (getRegistryPath registryType).1 registry.ALL_ACCESS with
    | inr err => (w, Some (AccessError err))
    | inl k =>
      match registry.SetStringValue k (Name entry) fullPath w with
      | (w', Some err) => (w', Some (WriteError err))
      | (w', None) => (w', None)
      end
    end).
  { unfold AddStartupEntry.
    destruct (String.eqb_spec (Name entry) "") as [E|_]; [done|].
    rewrite Habs, Hstat, Hother. by destruct (getRegistryPath registryType). }
  split; [exact Hrun|].
  intros e. rewrite Hrun.
  destruct (registry.OpenKey _ _ _ _) as [k|err]; simpl.
  - destruct (registry.SetStringValue k (Name entry) fullPath w) as [w' [err|]]; simpl;
      intros [= <-]. apply wrapError_not_NotFoundError.
  - intros [= <-]. apply wrapError_not_NotFoundError.
Qed.

Lemma AddStartupEntry_stat_other_error_witness :
  Name locked_entry <> "" /\
  filepath.Abs sample_world (Command locked_entry) = inl "C:\Locked\app.exe" /\
  os.Stat sample_world "C:\Locked\app.exe" = Some (ExtError "Access is denied." false) /\
  os.IsNotExist (Some (ExtError "Access is denied." false)) = false /\
  (AddStartupEntry locked_entry CurrentUserRun sample_world).2 = None /\
  value_at (AddStartupEntry locked_entry CurrentUserRun sample_world).1
    registry.CURRENT_USER "Software\Microsoft\Windows\CurrentVersion\Run" "Locked"
    = Some (SZ "C:\Locked\app.exe").
Proof.
  assert (Hname : Name locked_entry <> "") by discriminate.
  split; [exact Hname|]. do 3 (split; [reflexivity|]).
  rewrite (proj1 (AddStartupEntry_stat_other_error locked_entry CurrentUserRun sample_world
                    "C:\Locked\app.exe" (ExtError "Access is denied." false)
                    Hname eq_refl eq_refl eq_refl)).
  split; vm_compute; reflexivity.
Defined.

(** ** What the registry calls do to the store *)

Lemma OpenKey_inl (w : World) (root : Z) (path : string) (access : Z) (k : registry.Handle) :
  registry.OpenKey w root path access = inl k ->
  registry.h_root k = root /\ registry.h_path k = path /\
  reg_fault w (OpOpen root path access) = None /\
  is_Some (reg_keys w !! (root, path)).
Proof.
  unfold registry.OpenKey. intros H.
  destruct (reg_fault w (OpOpen root path access)); [discriminate|].
  destruct (reg_keys w !! (root, path)) eqn:E; [|discriminate].
  injection H as <-. eauto.
Qed.

Lemma value_at_with_keys (w : World) (root root' : Z) (path path' name : string)
  (values : gmap string Value) :
  value_at (with_keys w (<[(root, path) := values]> (reg_keys w))) root' path' name =
    if decide ((root, path) = (root', path')) then values !! name
    else value_at w root' path' name.
Proof.
  unfold value_at, with_keys; simpl. rewrite lookup_insert.
  by destruct (decide ((root, path) = (root', path'))).
Qed.

Lemma SetStringValue_success (k : registry.Handle) (name value : string) (w w' : World) :
  registry.SetStringValue k name value w = (w', None) ->
  exists values,
    reg_keys w !! (registry.h_root k, registry.h_path k) = Some values /\
    w' = with_keys w (<[(registry.h_root k, registry.h_path k) := <[name := SZ value]> values]>
                        (reg_keys w)).
Proof.
  unfold registry.SetStringValue. intros H.
  destruct (reg_fault w _); [discriminate|].
  destruct (reg_keys w !! _) as [values|] eqn:E; [|discriminate].
  injection H as <-. eauto.
Qed.

Lemma DeleteValue_success (k : registry.Handle) (name : string) (w w' : World) :
  registry.DeleteValue k name w = (w', None) ->
  exists values,
    reg_keys w !! (registry.h_root k, registry.h_path k) = Some values /\
    is_Some (values !! name) /\
    w' = with_keys w (<[(registry.h_root k, registry.h_path k) := delete name values]>
                        (reg_keys w)).
Proof.
  unfold registry.DeleteValue. intros H.
  destruct (reg_fault w _); [discriminate|].
  destruct (reg_keys w !! _) as [values|] eqn:E; [|discriminate].
  destruct (values !! name) eqn:En; [|discriminate].
  injection H as <-. eauto.
Qed.

(** A delete that fails leaves the world as it was. *)
Lemma DeleteValue_failure (k : registry.Handle) (name : string) (w w' : World) (err : error) :
  registry.DeleteValue k name w = (w', Some err) -> w' = w.
Proof.
  unfold registry.DeleteValue. intros H.
  destruct (reg_fault w _); [by injection H|].
  destruct (reg_keys w !! _) as [values|]; [|by injection H].
  destruct (values !! name); [discriminate | by injection H].
Qed.

(** ** Removing an entry from one startup type *)

Lemma RemoveStartupEntry_unfold (entryName : string) (registryType : StartupRegistryType)
  (w : World) :
  RemoveStartupEntry entryName registryType w =
    match registry.OpenKey w (getRegistryPath registryType).2
            (getRegistryPath registryType).1 registry.ALL_ACCESS with
    | inr err => (w, Some (AccessError err))
    | inl k =>
      match registry.DeleteValue k entryName w with
      | (w', Some err) =>
        (w', Some (if strings.Contains (Error err) "The system cannot find the file specified"
                   then EntryNotFoundError entryName (getRegistryPath registryType).1
                   else DeleteError err))
      | (w', None) => (w', None)
      end
    end.
Proof.
  unfold RemoveStartupEntry. destruct (getRegistryPath registryType) as [keyPath rootKey]; simpl.
  destruct (registry.OpenKey w rootKey keyPath registry.ALL_ACCESS) as [k|err]; [|done].
  destruct (registry.DeleteValue k entryName w) as [w' [err|]]; [|done].
  by destruct (strings.Contains _ _).
Qed.

(** C6. When the key has been opened and deleting the value fails,
    [RemoveStartupEntry] looks for "The system cannot find the file specified"
    in the text of the error: with it the result is the not-found error, which
    names the entry and the key; without it the result is the delete error,
    which wraps the error of the delete.  The two are different errors. *)
Theorem RemoveStartupEntry_delete_failure
  (entryName : string) (registryType : StartupRegistryType) (w w' : World)
  (k : registry.Handle) (err : error) :
  registry.OpenKey w (getRegistryPath registryType).2
    (getRegistryPath registryType).1 registry.ALL_ACCESS = inl k ->
  registry.DeleteValue k entryName w = (w', Some err) ->
  (strings.Contains (Error err) "The system cannot find the file specified" = true ->
   RemoveStartupEntry entryName registryType w =
     (w', Some (EntryNotFoundError entryName (getRegistryPath registryType).1))) /\
  (strings.Contains (Error err) "The system cannot find the file specified" = false ->
   RemoveStartupEntry entryName registryType w = (w', Some (DeleteError err))) /\
  is_NotFoundError (EntryNotFoundError entryName (getRegistryPath registryType).1) /\
  ~ is_NotFoundError (DeleteError err) /\
  Unwrap (DeleteError err) = Some err.
Proof.
  intros Hopen Hdel. rewrite RemoveStartupEntry_unfold, Hopen, Hdel.
  split; [by intros ->|]. split; [by intros ->|].
  split; [right; eauto|]. split; [apply wrapError_not_NotFoundError | reflexivity].
Qed.

Lemma RemoveStartupEntry_delete_failure_witness :
  RemoveStartupEntry "Ghost" CurrentUserRun sample_world =
    (sample_world,
     Some (EntryNotFoundError "Ghost" "Software\Microsoft\Windows\CurrentVersion\Run")) /\
  RemoveStartupEntry "Updater" CurrentUserRun locked_world =
    (locked_world, Some (DeleteError (ExtError "Access is denied." false))).
Proof.
  split.
  - refine (proj1 (RemoveStartupEntry_delete_failure "Ghost" CurrentUserRun
                     sample_world sample_world
                     (registry.mkHandle registry.CURRENT_USER
                        "Software\Microsoft\Windows\CurrentVersion\Run" registry.ALL_ACCESS)
                     (registry.ERROR_FILE_NOT_FOUND sample_world) _ _) _); reflexivity.
  - refine (proj1 (proj2 (RemoveStartupEntry_delete_failure "Updater" CurrentUserRun
                     locked_world locked_world
                     (registry.mkHandle registry.CURRENT_USER
                        "Software\Microsoft\Windows\CurrentVersion\Run" registry.ALL_ACCESS)
                     (ExtError "Access is denied." false) _ _)) _); reflexivity.
Defined.

(** ** What adding and removing change *)

(** A successful [AddStartupEntry] has set one string value under the key of
    the startup type. *)
Lemma AddStartupEntry_success (entry : StartupEntry) (registryType : StartupRegistryType)
  (w w' : World) :
  AddStartupEntry entry registryType w = (w', None) ->
  exists fullPath values,
    Name entry <> "" /\
    filepath.Abs w (Command entry) = inl fullPath /\
    reg_keys w !! ((getRegistryPath registryType).2, (getRegistryPath registryType).1)
      = Some values /\
    w' = with_keys w
           (<[((getRegistryPath registryType).2, (getRegistryPath registryType).1) :=
                <[Name entry := SZ fullPath]> values]> (reg_keys w)).
Proof.
  unfold AddStartupEntry.
  destruct (String.eqb_spec (Name entry) "") as [|Hname]; [discriminate|].
  destruct (filepath.Abs w (Command entry)) as [fullPath|]; [|discriminate].
  destruct (os.IsNotExist _); [discriminate|].
  destruct (getRegistryPath registryType) as [keyPath rootKey]; simpl.
  destruct (registry.OpenKey w rootKey keyPath registry.ALL_ACCESS) as [k|] eqn:Hopen;
    [|discriminate].
  destruct (registry.SetStringValue k (Name entry) fullPath w) as [w1 [err|]] eqn:Hset;
    [discriminate|].
  intros [= <-].
  apply OpenKey_inl in Hopen as (Hroot & Hpath & _ & _).
  apply SetStringValue_success in Hset as (values & Hvalues & ->).
  rewrite Hroot, Hpath in *. by exists fullPath, values.
Qed.

(** A successful [RemoveStartupEntry] has deleted one value that was there. *)
Lemma RemoveStartupEntry_success (entryName : string) (registryType : StartupRegistryType)
  (w w' : World) :
  RemoveStartupEntry entryName registryType w = (w', None) ->
  exists values,
    reg_keys w !! ((getRegistryPath registryType).2, (getRegistryPath registryType).1)
      = Some values /\
    is_Some (values !! entryName) /\
    w' = with_keys w
           (<[((getRegistryPath registryType).2, (getRegistryPath registryType).1) :=
                delete entryName values]> (reg_keys w)).
Proof.
  rewrite RemoveStartupEntry_unfold.
  destruct (registry.OpenKey _ _ _ _) as [k|] eqn:Hopen; [|discriminate].
  destruct (registry.DeleteValue k entryName w) as [w1 [err|]] eqn:Hdel; [discriminate|].
  intros [= <-].
  apply OpenKey_inl in Hopen as (Hroot & Hpath & _ & _).
  apply DeleteValue_success in Hdel as (values & Hvalues & Hsome & ->).
  rewrite Hroot, Hpath in *. by exists values.
Qed.

(** A [RemoveStartupEntry] that fails leaves the world as it was. *)
Lemma RemoveStartupEntry_failure (entryName : string) (registryType : StartupRegistryType)
  (w w' : World) (err : error) :
  RemoveStartupEntry entryName registryType w = (w', Some err) -> w' = w.
Proof.
  rewrite RemoveStartupEntry_unfold.
  destruct (registry.OpenKey _ _ _ _) as [k|]; [|by intros [= <-]].
  destruct (registry.DeleteValue k entryName w) as [w1 [e|]] eqn:Hdel; [|discriminate].
  intros [= <- _]. by apply DeleteValue_failure in Hdel.
Qed.

(** When the value is not there, [RemoveStartupEntry] does not succeed. *)
Lemma RemoveStartupEntry_absent (entryName : string) (registryType : StartupRegistryType)
  (w : World) :
  value_at w (getRegistryPath registryType).2 (getRegistryPath registryType).1 entryName = None ->
  (RemoveStartupEntry entryName registryType w).1 = w /\
  (RemoveStartupEntry entryName registryType w).2 <> None.
Proof.
  intros Habsent.
  destruct (RemoveStartupEntry entryName registryType w) as [w' [err|]] eqn:Hrun; simpl.
  - split; [by apply RemoveStartupEntry_failure in Hrun | done].
  - apply RemoveStartupEntry_success in Hrun as (values & Hvalues & [v Hv] & _).
    unfold value_at in Habsent. rewrite Hvalues in Habsent. congruence.
Qed.

(** C9. A successful [AddStartupEntry] leaves, under the key of its startup
    type, the string value of the entry's name with the normalized path, and
    every other value of every key as it was.  A successful
    [RemoveStartupEntry] has found the named value under the key of its startup
    type, leaves it deleted, and every other value of every key as it was.
    When the named value is not under that key, [RemoveStartupEntry] returns
    the world it was given. *)
Theorem add_remove_frame
  (entry : StartupEntry) (entryName : string) (registryType : StartupRegistryType)
  (w : World) :
  let keyPath := (getRegistryPath registryType).1 in
  let rootKey := (getRegistryPath registryType).2 in
  (forall w', AddStartupEntry entry registryType w = (w', None) ->
     (exists fullPath, filepath.Abs w (Command entry) = inl fullPath /\
        value_at w' rootKey keyPath (Name entry) = Some (SZ fullPath)) /\
     (forall root path name, (root, path, name) <> (rootKey, keyPath, Name entry) ->
        value_at w' root path name = value_at w root path name) /\
     dom (reg_keys w') = dom (reg_keys w)) /\
  (forall w', RemoveStartupEntry entryName registryType w = (w', None) ->
     is_Some (value_at w rootKey keyPath entryName) /\
     value_at w' rootKey keyPath entryName = None /\
     (forall root path name, (root, path, name) <> (rootKey, keyPath, entryName) ->
        value_at w' root path name = value_at w root path name) /\
     dom (reg_keys w') = dom (reg_keys w)) /\
  (value_at w rootKey keyPath entryName = None ->
     (RemoveStartupEntry entryName registryType w).1 = w).
Proof.
  intros keyPath rootKey. split; [|split].
  - intros w' Hadd.
    apply AddStartupEntry_success in Hadd as (fullPath & values & _ & Habs & Hvalues & ->).
    fold keyPath rootKey in Hvalues |- *. split; [|split].
    + exists fullPath. split; [done|].
      rewrite value_at_with_keys, decide_True by done. apply lookup_insert_eq.
    + intros root path name Hne. rewrite value_at_with_keys.
      destruct (decide ((rootKey, keyPath) = (root, path))) as [Hkey|]; [|done].
      assert (root = rootKey /\ path = keyPath) as [-> ->] by (by injection Hkey).
      rewrite lookup_insert_ne by congruence.
      unfold value_at. by rewrite Hvalues.
    + simpl. apply dom_insert_lookup_L. eauto.
  - intros w' Hdel.
    apply RemoveStartupEntry_success in Hdel as (values & Hvalues & Hsome & ->).
    fold keyPath rootKey in Hvalues |- *. split; [|split; [|split]].
    + unfold value_at. by rewrite Hvalues.
    + rewrite value_at_with_keys, decide_True by done. apply lookup_delete_eq.
    + intros root path name Hne. rewrite value_at_with_keys.
      destruct (decide ((rootKey, keyPath) = (root, path))) as [Hkey|]; [|done].
      assert (root = rootKey /\ path = keyPath) as [-> ->] by (by injection Hkey).
      rewrite lookup_delete_ne by congruence.
      unfold value_at. by rewrite Hvalues.
    + simpl. apply dom_insert_lookup_L. eauto.
  - intros Habsent. by apply RemoveStartupEntry_absent.
Qed.

Lemma add_remove_frame_witness :
  (exists w',
     AddStartupEntry app_entry CurrentUserRun sample_world = (w', None) /\
     value_at w' registry.CURRENT_USER "Software\Microsoft\Windows\CurrentVersion\Run"
       "TestApp" = Some (SZ "C:\Work\app.exe") /\
     value_at w' registry.CURRENT_USER "Software\Microsoft\Windows\CurrentVersion\Run"
       "Updater" = Some (SZ "C:\Tools\updater.exe")) /\
  (exists w',
     RemoveStartupEntry "Updater" CurrentUserRun sample_world = (w', None) /\
     value_at w' registry.CURRENT_USER "Software\Microsoft\Windows\CurrentVersion\Run"
       "Updater" = None /\
     value_at w' registry.CURRENT_USER "Software\Microsoft\Windows\CurrentVersion\Run"
       "Counter" = Some (OtherType 4)) /\
  (RemoveStartupEntry "Updater" CurrentUserRunOnce sample_world).1 = sample_world.
Proof.
  destruct (add_remove_frame app_entry "Updater" CurrentUserRun sample_world)
    as (Hadd & Hdel & _).
  destruct (add_remove_frame app_entry "Updater" CurrentUserRunOnce sample_world)
    as (_ & _ & Habsent).
  split; [|split].
  - eexists. split; [reflexivity|].
    destruct (Hadd _ eq_refl) as (_ & Hother & _).
    split; [reflexivity|]. rewrite Hother; [reflexivity | discriminate].
  - eexists. split; [reflexivity|].
    destruct (Hdel _ eq_refl) as (_ & Hgone & Hother & _).
    split; [exact Hgone|]. rewrite Hother; [reflexivity | discriminate].
  - apply Habsent. reflexivity.
Defined.

(** ** Removing an entry from every startup type *)

(** Removal attempted for each startup type of a list in turn, each attempt in
    the world the previous one left: the final world and the error of every
    attempt. *)
Fixpoint removeEach (entryName : string) (types : list StartupRegistryType) (w : World)
  : World * list (option error) :=
  match types with
  | [] => (w, [])
  | registryType :: types' =>
    let '(w1, r) := RemoveStartupEntry entryName registryType w in
    let '(w2, rs) := removeEach entryName types' w1 in
    (w2, r :: rs)
  end.

(** The last error of a list of outcomes, [d] when there is none. *)
Definition lastError (outcomes : list (option error)) (d : option error) : option error :=
  fold_left (fun acc r => match r with Some err => Some err | None => acc end) outcomes d.

Definition succeeded (r : option error) : bool :=
  match r with None => true | Some _ => false end.

(** The loop of [SafeRemoveStartupEntry], for any list of startup types and
    from any state: [lastErr] ends as the last error met, [removedFromAny] is
    set by the first attempt that succeeds. *)
Lemma safeRemove_loop (entryName : string) (types : list StartupRegistryType) :
  forall (w : World) (lastErr : option error) (removedFromAny : bool),
    fold_left (safeRemoveStep entryName) types (w, lastErr, removedFromAny) =
      ((removeEach entryName types w).1,
       lastError (removeEach entryName types w).2 lastErr,
       removedFromAny || existsb succeeded (removeEach entryName types w).2).
Proof.
  induction types as [|registryType types IH]; intros w lastErr removedFromAny.
  - simpl. by rewrite orb_false_r.
  - cbn [fold_left removeEach]. unfold safeRemoveStep at 2.
    destruct (RemoveStartupEntry entryName registryType w) as [w1 [err|]].
    + rewrite IH. by destruct (removeEach entryName types w1).
    + rewrite IH. destruct (removeEach entryName types w1); simpl.
      by rewrite orb_true_r.
Qed.

(** C1. [SafeRemoveStartupEntry] attempts the removal for the four startup
    types in turn.  It returns no error exactly when one of the four attempts
    returned none, and otherwise, when all four failed, the aggregate error
    wrapping the error of the last attempt. *)
Theorem SafeRemoveStartupEntry_outcome (entryName : string) (w : World) :
  let '(w1, r1) := RemoveStartupEntry entryName CurrentUserRun w in
  let '(w2, r2) := RemoveStartupEntry entryName CurrentUserRunOnce w1 in
  let '(w3, r3) := RemoveStartupEntry entryName AllUsersRun w2 in
  let '(w4, r4) := RemoveStartupEntry entryName AllUsersRunOnce w3 in
  (SafeRemoveStartupEntry entryName w).1 = w4 /\
  ((SafeRemoveStartupEntry entryName w).2 = None <->
     r1 = None \/ r2 = None \/ r3 = None \/ r4 = None) /\
  (forall e, (SafeRemoveStartupEntry entryName w).2 = Some e <->
     exists e1 e2 e3 e4,
       r1 = Some e1 /\ r2 = Some e2 /\ r3 = Some e3 /\ r4 = Some e4 /\
       e = AggregateNotFoundError entryName e4 /\ Unwrap e = Some e4).
Proof.
  unfold SafeRemoveStartupEntry. rewrite safeRemove_loop.
  unfold registryTypes. cbn [removeEach].
  destruct (RemoveStartupEntry entryName CurrentUserRun w) as [w1 r1].
  destruct (RemoveStartupEntry entryName CurrentUserRunOnce w1) as [w2 r2].
  destruct (RemoveStartupEntry entryName AllUsersRun w2) as [w3 r3].
  destruct (RemoveStartupEntry entryName AllUsersRunOnce w3) as [w4 r4].
  destruct r1 as [e1|], r2 as [e2|], r3 as [e3|], r4 as [e4|]; cbn;
    (split; [reflexivity|]); (split; [intuition congruence|]); intros e;
    try (split; [discriminate | intros (? & ? & ? & ? & ? & ? & ? & ? & _); congruence]).
  change (fmt.Errorf_w _ e4) with (AggregateNotFoundError entryName e4).
  split.
  - intros [= <-]. by exists e1, e2, e3, e4.
  - intros (? & ? & ? & x4 & _ & _ & _ & Hlast & -> & _). by injection Hlast as <-.
Qed.

(** An entry under one key only is removed without error; an entry under no
    key gives the aggregate error, which wraps the error of the last startup
    type, whose key is missing on the sample machine. *)
Lemma SafeRemoveStartupEntry_outcome_witness :
  (SafeRemoveStartupEntry "Agent" sample_world).2 = None /\
  (SafeRemoveStartupEntry "Ghost" sample_world).2 =
    Some (AggregateNotFoundError "Ghost"
            (AccessError (registry.ERROR_FILE_NOT_FOUND sample_world))).
Proof.
  split.
  - apply (proj1 (proj2 (SafeRemoveStartupEntry_outcome "Agent" sample_world))).
    right; right; left. reflexivity.
  - apply (proj2 (proj2 (SafeRemoveStartupEntry_outcome "Ghost" sample_world))).
    eexists _, _, _, _. repeat split; reflexivity.
Defined.

(** ** Listing the entries of one startup type *)

(** The loop of [ListStartupEntries], for any list of names and from any map:
    a name of the list whose value reads as a string ends with that string; any
    other name ends as it started. *)
Lemma list_loop (k : registry.Handle) (w : World) (valueNames : list string) :
  forall (entries : gmap string string) (name : string),
    fold_left (listStep k w) valueNames entries !! name =
      if decide (name ∈ valueNames) then
        match registry.GetStringValue k name w with
        | inl value => Some value
        | inr _ => entries !! name
        end
      else entries !! name.
Proof.
  induction valueNames as [|n valueNames IH]; intros entries name.
  - cbn [fold_left]. by rewrite decide_False by apply not_elem_of_nil.
  - cbn [fold_left]. rewrite IH.
    assert (Hstep : listStep k w entries n !! name =
                    if decide (n = name) then
                      match registry.GetStringValue k name w with
                      | inl value => Some value
                      | inr _ => entries !! name
                      end
                    else entries !! name).
    { unfold listStep. destruct (decide (n = name)) as [->|Hne].
      - destruct (registry.GetStringValue k name w); [apply lookup_insert_eq | done].
      - destruct (registry.GetStringValue k n w); [by apply lookup_insert_ne | done]. }
    rewrite Hstep. clear Hstep IH.
    destruct (decide (name ∈ n :: valueNames)) as [Hin|Hnin];
      rewrite elem_of_cons in *;
      destruct (decide (name ∈ valueNames)), (decide (n = name)),
               (registry.GetStringValue k name w);
      try done; exfalso; intuition congruence.
Qed.

(** C8. Once the key is open and its value names are read,
    [ListStartupEntries] returns no error, and the map it returns holds
    exactly the names whose value reads as a string, each with that string: a
    value that fails to read is left out and nothing else is. *)
Theorem ListStartupEntries_skips_unreadable
  (registryType : StartupRegistryType) (w : World)
  (k : registry.Handle) (valueNames : list string) :
  registry.OpenKey w (getRegistryPath registryType).2
    (getRegistryPath registryType).1 registry.QUERY_VALUE = inl k ->
  registry.ReadValueNames k w = inl valueNames ->
  exists entries,
    ListStartupEntries registryType w = (entries, None) /\
    forall name value,
      entries !! name = Some value <->
      name ∈ valueNames /\ registry.GetStringValue k name w = inl value.
Proof.
  intros Hopen Hnames. exists (fold_left (listStep k w) valueNames ∅). split.
  - unfold ListStartupEntries. destruct (getRegistryPath registryType) as [keyPath rootKey].
    simpl in Hopen. by rewrite Hopen, Hnames.
  - intros name value. rewrite list_loop, lookup_empty.
    destruct (decide (name ∈ valueNames)) as [Hin|Hnin].
    + destruct (registry.GetStringValue k name w) as [v|err].
      * split; [by intros [= ->] | by intros [_ [= ->]]].
      * split; [discriminate | by intros [_ ?]].
    + split; [discriminate | by intros [? _]].
Qed.

Lemma ListStartupEntries_skips_unreadable_witness :
  exists entries,
    ListStartupEntries CurrentUserRun sample_world = (entries, None) /\
    entries !! "Updater" = Some "C:\Tools\updater.exe" /\
    entries !! "Counter" = None.
Proof.
  destruct (ListStartupEntries_skips_unreadable CurrentUserRun sample_world
              (registry.mkHandle registry.CURRENT_USER
                 "Software\Microsoft\Windows\CurrentVersion\Run" registry.QUERY_VALUE)
              (map_to_list ({[ "Updater" := SZ "C:\Tools\updater.exe";
                               "Counter" := OtherType 4 ]} : gmap string Value)).*1
              eq_refl eq_refl) as (entries & Hrun & Hspec).
  exists entries. split; [exact Hrun|]. split.
  - apply Hspec. split; [|reflexivity].
    apply (bool_decide_unpack _). vm_compute. exact I.
  - destruct (entries !! "Counter") as [value|] eqn:E; [|reflexivity].
    apply Hspec in E as [_ Hget]. vm_compute in Hget. discriminate.
Defined.

(** The names [ReadValueNames] returns are the names of the values of the
    key. *)
Lemma ReadValueNames_names (k : registry.Handle) (w : World) (valueNames : list string)
  (name : string) :
  registry.ReadValueNames k w = inl valueNames ->
  name ∈ valueNames <->
  is_Some (value_at w (registry.h_root k) (registry.h_path k) name).
Proof.
  unfold registry.ReadValueNames, value_at. intros H.
  destruct (reg_fault w _); [discriminate|].
  destruct (reg_keys w !! _) as [values|]; [|discriminate].
  injection H as <-. rewrite list_elem_of_fmap. split.
  - intros ([n v] & -> & Hin). apply elem_of_map_to_list in Hin. simpl. eauto.
  - intros [v Hv]. exists (name, v). split; [done|]. by apply elem_of_map_to_list.
Qed.

(** C2. Take an entry with a name, whose command normalizes to a path that
    exists, and an [AddStartupEntry] that returned no error.  Then every
    [ListStartupEntries] of the same startup type that returns no error
    returns a map with the entry's name at the normalized path; and it does
    return no error when the system refuses neither to open the key for
    reading nor to enumerate its values. *)
Theorem add_then_list
  (entry : StartupEntry) (registryType : StartupRegistryType) (w w1 : World)
  (fullPath : string) :
  Name entry <> "" ->
  filepath.Abs w (Command entry) = inl fullPath ->
  os.Stat w fullPath = None ->
  AddStartupEntry entry registryType w = (w1, None) ->
  (forall entries,
     ListStartupEntries registryType w1 = (entries, None) ->
     entries !! Name entry = Some fullPath) /\
  (reg_fault w (OpOpen (getRegistryPath registryType).2 (getRegistryPath registryType).1
                  registry.QUERY_VALUE) = None ->
   reg_fault w (OpReadValueNames (getRegistryPath registryType).2
                  (getRegistryPath registryType).1) = None ->
   exists entries, ListStartupEntries registryType w1 = (entries, None)).
Proof.
  intros _ Habs _ Hadd.
  apply AddStartupEntry_success in Hadd as (fullPath' & values & _ & Habs' & Hvalues & ->).
  assert (fullPath' = fullPath) as -> by congruence.
  unfold ListStartupEntries.
  destruct (getRegistryPath registryType) as [keyPath rootKey]. simpl in *.
  set (w1 := with_keys w _).
  assert (Hvalue : value_at w1 rootKey keyPath (Name entry) = Some (SZ fullPath)).
  { unfold w1. rewrite value_at_with_keys, decide_True by done. apply lookup_insert_eq. }
  split.
  - intros entries.
    destruct (registry.OpenKey w1 rootKey keyPath registry.QUERY_VALUE) as [k|] eqn:Hopen;
      [|discriminate].
    destruct (registry.ReadValueNames k w1) as [valueNames|] eqn:Hnames; [|discriminate].
    intros [= <-].
    apply OpenKey_inl in Hopen as (Hroot & Hpath & _ & _).
    rewrite list_loop.
    rewrite decide_True.
    + unfold registry.GetStringValue. by rewrite Hroot, Hpath, Hvalue.
    + apply (ReadValueNames_names k w1 valueNames); [done|].
      rewrite Hroot, Hpath, Hvalue. eauto.
  - intros Hopen Hnames.
    unfold registry.OpenKey, registry.ReadValueNames. simpl.
    rewrite Hopen, lookup_insert_eq. simpl. rewrite Hnames, lookup_insert_eq. eauto.
Qed.

Lemma add_then_list_witness :
  Name app_entry <> "" /\
  filepath.Abs sample_world (Command app_entry) = inl "C:\Work\app.exe" /\
  os.Stat sample_world "C:\Work\app.exe" = None /\
  (AddStartupEntry app_entry CurrentUserRun sample_world).2 = None /\
  exists entries,
    ListStartupEntries CurrentUserRun
      (AddStartupEntry app_entry CurrentUserRun sample_world).1 = (entries, None) /\
    entries !! "TestApp" = Some "C:\Work\app.exe".
Proof.
  assert (Hname : Name app_entry <> "") by discriminate.
  split; [exact Hname|]. do 3 (split; [reflexivity|]).
  destruct (add_then_list app_entry CurrentUserRun sample_world
              (AddStartupEntry app_entry CurrentUserRun sample_world).1
              "C:\Work\app.exe" Hname eq_refl eq_refl eq_refl) as [Hfound Hruns].
  destruct (Hruns eq_refl eq_refl) as [entries Hlist].
  exists entries. split; [exact Hlist|]. exact (Hfound entries Hlist).
Defined.

(** ** Listing the entries of every startup type *)

(** The loop of [ListAllStartupEntries], for any list of startup types and
    from any map: a type of the list whose listing returns no error and at
    least one entry ends with that listing; any other type ends as it
    started. *)
Lemma listAll_loop (w : World) (types : list StartupRegistryType) :
  forall (allEntries : gmap Z (gmap string string)) (registryType : StartupRegistryType),
    fold_left (listAllStep w) types allEntries !! registryType =
      if decide (registryType ∈ types) then
        match ListStartupEntries registryType w with
        | (entries, None) =>
          if (0 <? size entries)%nat then Some entries else allEntries !! registryType
        | (_, Some _) => allEntries !! registryType
        end
      else allEntries !! registryType.
Proof.
  induction types as [|t types IH]; intros allEntries registryType.
  - cbn [fold_left]. by rewrite decide_False by apply not_elem_of_nil.
  - cbn [fold_left]. rewrite IH.
    assert (Hstep : listAllStep w allEntries t !! registryType =
                    if decide (t = registryType) then
                      match ListStartupEntries registryType w with
                      | (entries, None) =>
                        if (0 <? size entries)%nat then Some entries
                        else allEntries !! registryType
                      | (_, Some _) => allEntries !! registryType
                      end
                    else allEntries !! registryType).
    { unfold listAllStep. destruct (decide (t = registryType)) as [->|Hne].
      - destruct (ListStartupEntries registryType w) as [entries [err|]]; [done|].
        destruct (0 <? size entries)%nat; [apply lookup_insert_eq | done].
      - destruct (ListStartupEntries t w) as [entries [err|]]; [done|].
        destruct (0 <? size entries)%nat; [by apply lookup_insert_ne | done]. }
    rewrite Hstep. clear Hstep IH.
    destruct (ListStartupEntries registryType w) as [entries [err|]];
      [|destruct (0 <? size entries)%nat];
      destruct (decide (registryType ∈ t :: types)) as [Hin|Hnin];
      rewrite elem_of_cons in *;
      destruct (decide (registryType ∈ types)), (decide (t = registryType));
      try done; exfalso; intuition congruence.
Qed.

(** C7. [ListAllStartupEntries] lists the four startup types and never
    returns an error.  Its map has a startup type, with a given listing,
    exactly when the type is one of the four and [ListStartupEntries] returns
    for it that listing, no error, and at least one entry. *)
Theorem ListAllStartupEntries_contents (w : World) :
  (ListAllStartupEntries w).2 = None /\
  forall (registryType : StartupRegistryType) (entries : gmap string string),
    (ListAllStartupEntries w).1 !! registryType = Some entries <->
    registryType ∈ [CurrentUserRun; CurrentUserRunOnce; AllUsersRun; AllUsersRunOnce] /\
    ListStartupEntries registryType w = (entries, None) /\
    (0 < size entries)%nat.
Proof.
  split; [reflexivity|]. intros registryType entries.
  unfold ListAllStartupEntries. cbn [fst]. rewrite listAll_loop, lookup_empty.
  fold registryTypes.
  destruct (decide (registryType ∈ registryTypes)) as [Hin|Hnin].
  - destruct (ListStartupEntries registryType w) as [entries' [err|]].
    + split; [discriminate | by intros (_ & ? & _)].
    + destruct (Nat.ltb_spec 0 (size entries')) as [Hpos|Hzero].
      * split; [by intros [= ->] | by intros (_ & [= ->] & _)].
      * split; [discriminate | intros (_ & [= ->] & ?); lia].
  - split; [discriminate | by intros (? & _)].
Qed.

(** On the sample machine the two [Run] keys are listed; the current user's
    [RunOnce] key is left out because it is empty, and the machine-wide
    [RunOnce] key because it cannot be opened. *)
Lemma ListAllStartupEntries_contents_witness :
  is_Some ((ListAllStartupEntries sample_world).1 !! CurrentUserRun) /\
  is_Some ((ListAllStartupEntries sample_world).1 !! AllUsersRun) /\
  (ListAllStartupEntries sample_world).1 !! CurrentUserRunOnce = None /\
  (ListAllStartupEntries sample_world).1 !! AllUsersRunOnce = None /\
  (ListStartupEntries AllUsersRunOnce sample_world).2
    = Some (AccessError (registry.ERROR_FILE_NOT_FOUND sample_world)) /\
  (ListAllStartupEntries sample_world).2 = None.
Proof.
  destruct (ListAllStartupEntries_contents sample_world) as [Hnil Hspec].
  split; [|split; [|split; [|split; [reflexivity | split; [reflexivity | exact Hnil]]]]].
  - eexists. apply Hspec. split; [apply list_elem_of_here|].
    split; [reflexivity | vm_compute; lia].
  - eexists. apply Hspec.
    split; [apply list_elem_of_further, list_elem_of_further, list_elem_of_here|].
    split; [reflexivity | vm_compute; lia].
  - destruct (_ !! CurrentUserRunOnce) as [entries|] eqn:E; [|reflexivity].
    apply Hspec in E as (_ & Hlist & Hpos). exfalso.
    injection Hlist as <-. vm_compute in Hpos. lia.
Defined.


(** * Further properties of the package *)

(** ** What a listing is, in terms of the store *)

(** The string a registry value reads as, when it is a string. *)
Definition string_of (v : Value) : option string :=
  match v with
  | SZ s => Some s
  | EXPAND_SZ s => Some s
  | OtherType _ => None
  end.

(** [ListStartupEntries] in closed form: the outcome of every path of the
    function, with the loop replaced by what it computes. *)
Definition listing (registryType : StartupRegistryType) (w : World)
  : gmap string string * option error :=
  let keyPath := (getRegistryPath registryType).1 in
  let rootKey := (getRegistryPath registryType).2 in
  match reg_fault w (OpOpen rootKey keyPath registry.QUERY_VALUE) with
  | Some err => (∅, Some (AccessError err))
  | None =>
    match reg_keys w !! (rootKey, keyPath) with
    | None => (∅, Some (AccessError (registry.ERROR_FILE_NOT_FOUND w)))
    | Some values =>
      match reg_fault w (OpReadValueNames rootKey keyPath) with
      | Some err => (∅, Some (ReadError err))
      | None => (omap string_of values, None)
      end
    end
  end.

Lemma GetStringValue_string_of (k : registry.Handle) (name : string) (w : World)
  (values : gmap string Value) :
  reg_keys w !! (registry.h_root k, registry.h_path k) = Some values ->
  match registry.GetStringValue k name w with
  | inl value => Some value
  | inr _ => None
  end = values !! name ≫= string_of.
Proof.
  intros Hvalues. unfold registry.GetStringValue, value_at. rewrite Hvalues.
  by destruct (values !! name) as [[s|s|typ]|].
Qed.

(** The loop of [ListStartupEntries] computes [omap string_of]. *)
Lemma ListStartupEntries_listing (registryType : StartupRegistryType) (w : World) :
  ListStartupEntries registryType w = listing registryType w.
Proof.
  unfold ListStartupEntries, listing.
  destruct (getRegistryPath registryType) as [keyPath rootKey]. cbn [fst snd].
  unfold registry.OpenKey.
  destruct (reg_fault w (OpOpen rootKey keyPath registry.QUERY_VALUE)); [done|].
  destruct (reg_keys w !! (rootKey, keyPath)) as [values|] eqn:Hvalues; [|done].
  unfold registry.ReadValueNames. cbn [registry.h_root registry.h_path].
  destruct (reg_fault w (OpReadValueNames rootKey keyPath)); [done|].
  rewrite Hvalues. f_equal. apply map_eq. intros name.
  set (k := registry.mkHandle rootKey keyPath registry.QUERY_VALUE).
  rewrite list_loop, lookup_empty, lookup_omap.
  rewrite <- (GetStringValue_string_of k name w values Hvalues).
  destruct (decide (name ∈ (map_to_list values).*1)) as [Hin|Hnin].
  - by destruct (registry.GetStringValue k name w).
  - assert (Hnone : values !! name = None).
    { destruct (values !! name) as [v|] eqn:E; [|done]. exfalso. apply Hnin.
      apply list_elem_of_fmap. exists (name, v). split; [done|].
      by apply elem_of_map_to_list. }
    unfold registry.GetStringValue, value_at. cbn [registry.h_root registry.h_path k].
    by rewrite Hvalues, Hnone.
Qed.

(** X1. [ListStartupEntries] returns no error exactly when the key of the
    startup type exists and the system refuses neither to open it for reading
    nor to enumerate it.  The map it then returns holds exactly the
    string-typed values of the key, each name with its string; the map it
    returns with an error is empty. *)
Theorem ListStartupEntries_store (registryType : StartupRegistryType) (w : World) :
  let keyPath := (getRegistryPath registryType).1 in
  let rootKey := (getRegistryPath registryType).2 in
  ((ListStartupEntries registryType w).2 = None <->
     reg_fault w (OpOpen rootKey keyPath registry.QUERY_VALUE) = None /\
     is_Some (reg_keys w !! (rootKey, keyPath)) /\
     reg_fault w (OpReadValueNames rootKey keyPath) = None) /\
  (forall values,
     reg_keys w !! (rootKey, keyPath) = Some values ->
     (ListStartupEntries registryType w).2 = None ->
     (ListStartupEntries registryType w).1 = omap string_of values) /\
  ((ListStartupEntries registryType w).2 <> None ->
   (ListStartupEntries registryType w).1 = ∅).
Proof.
  intros keyPath rootKey. rewrite ListStartupEntries_listing. unfold listing.
  fold keyPath rootKey.
  destruct (reg_fault w (OpOpen rootKey keyPath registry.QUERY_VALUE)) as [e1|].
  { cbn. split; [split; [discriminate | by intros (? & _)] | split; [discriminate | done]]. }
  destruct (reg_keys w !! (rootKey, keyPath)) as [values|].
  2: { cbn. split; [split; [discriminate | by intros (_ & [? ?] & _)]|].
       split; [discriminate | done]. }
  destruct (reg_fault w (OpReadValueNames rootKey keyPath)) as [e2|]; cbn.
  - split; [split; [discriminate | by intros (_ & _ & ?)] | split; [discriminate | done]].
  - split; [split; [eauto | done]|]. split; [by intros ? [= <-] | done].
Qed.

(** The current user's [Run] key of the sample machine lists its one string
    value and leaves the number out; the missing machine-wide [RunOnce] key
    gives an error and the empty map. *)
Lemma ListStartupEntries_store_witness :
  ListStartupEntries CurrentUserRun sample_world
    = ({[ "Updater" := "C:\Tools\updater.exe" ]}, None) /\
  (ListStartupEntries AllUsersRunOnce sample_world).1 = ∅.
Proof.
  destruct (ListStartupEntries_store CurrentUserRun sample_world) as (Hok & Hmap & _).
  destruct (ListStartupEntries_store AllUsersRunOnce sample_world) as (_ & _ & Hempty).
  assert (Hkey : reg_keys sample_world
                   !! ((getRegistryPath CurrentUserRun).2, (getRegistryPath CurrentUserRun).1)
                 = Some {[ "Updater" := SZ "C:\Tools\updater.exe"; "Counter" := OtherType 4 ]})
    by (vm_compute; reflexivity).
  assert (Hnil : (ListStartupEntries CurrentUserRun sample_world).2 = None).
  { apply Hok. split; [reflexivity|]. split; [rewrite Hkey; eauto | reflexivity]. }
  split.
  - rewrite (surjective_pairing (ListStartupEntries _ _)).
    rewrite (Hmap _ Hkey Hnil), Hnil. vm_compute. reflexivity.
  - apply Hempty. vm_compute. discriminate.
Defined.

(** ** Adding and removing, in terms of the store *)

Lemma with_keys_same (w : World) : with_keys w (reg_keys w) = w.
Proof. by destruct w. Qed.

(** [RemoveStartupEntry] does not return: the key opens and [DeleteValue]
    panics. *)
Definition RemoveStartupEntry_panics (entryName : string)
  (registryType : StartupRegistryType) (w : World) : bool :=
  let '(keyPath, rootKey) := getRegistryPath registryType in
  match registry.OpenKey w rootKey keyPath registry.ALL_ACCESS with
  | inr _ => false
  | inl k => registry.DeleteValue_panics k entryName
  end.

(** One of the attempts of a list panics: the first, or a later one in the
    world the earlier ones left. *)
Fixpoint removeEach_panics (entryName : string) (types : list StartupRegistryType)
  (w : World) : bool :=
  match types with
  | [] => false
  | registryType :: types' =>
    RemoveStartupEntry_panics entryName registryType w ||
    removeEach_panics entryName types' (RemoveStartupEntry entryName registryType w).1
  end.

(** [SafeRemoveStartupEntry] does not return: it has no [recover], so it
    panics when one of its four attempts does. *)
Definition SafeRemoveStartupEntry_panics (entryName : string) (w : World) : bool :=
  removeEach_panics entryName registryTypes w.

Lemma RemoveStartupEntry_returns (entryName : string) (registryType : StartupRegistryType)
  (w : World) :
  registry.has_NUL entryName = false ->
  RemoveStartupEntry_panics entryName registryType w = false.
Proof.
  intros Hnul. unfold RemoveStartupEntry_panics.
  destruct (getRegistryPath registryType) as [keyPath rootKey].
  by destruct (registry.OpenKey w rootKey keyPath registry.ALL_ACCESS).
Qed.

Lemma removeEach_returns (entryName : string) (types : list StartupRegistryType) :
  registry.has_NUL entryName = false ->
  forall w, removeEach_panics entryName types w = false.
Proof.
  intros Hnul. induction types as [|t types IH]; intros w; [done|].
  cbn [removeEach_panics]. by rewrite RemoveStartupEntry_returns, IH.
Qed.

(** [RemoveStartupEntry] path by path. *)
Lemma RemoveStartupEntry_store (entryName : string) (registryType : StartupRegistryType)
  (w : World) :
  let keyPath := (getRegistryPath registryType).1 in
  let rootKey := (getRegistryPath registryType).2 in
  RemoveStartupEntry entryName registryType w =
    match reg_fault w (OpOpen rootKey keyPath registry.ALL_ACCESS) with
    | Some err => (w, Some (AccessError err))
    | None =>
      match reg_keys w !! (rootKey, keyPath) with
      | None => (w, Some (AccessError (registry.ERROR_FILE_NOT_FOUND w)))
      | Some values =>
        match reg_fault w (OpDeleteValue rootKey keyPath entryName) with
        | Some err =>
          (w, Some (if strings.Contains (Error err) "The system cannot find the file specified"
                    then EntryNotFoundError entryName keyPath
                    else DeleteError err))
        | None =>
          match values !! entryName with
          | None =>
            (w, Some (if strings.Contains (Error (registry.ERROR_FILE_NOT_FOUND w))
                           "The system cannot find the file specified"
                      then EntryNotFoundError entryName keyPath
                      else DeleteError (registry.ERROR_FILE_NOT_FOUND w)))
          | Some _ =>
            (with_keys w (<[(rootKey, keyPath) := delete entryName values]> (reg_keys w)), None)
          end
        end
      end
    end.
Proof.
  intros keyPath rootKey. rewrite RemoveStartupEntry_unfold. fold keyPath rootKey.
  unfold registry.OpenKey.
  destruct (reg_fault w (OpOpen rootKey keyPath registry.ALL_ACCESS)); [done|].
  destruct (reg_keys w !! (rootKey, keyPath)) as [values|] eqn:Hvalues; [|done].
  unfold registry.DeleteValue. cbn [registry.h_root registry.h_path].
  destruct (reg_fault w (OpDeleteValue rootKey keyPath entryName)); [done|].
  rewrite Hvalues. by destruct (values !! entryName).
Qed.

(** What a successful [AddStartupEntry] went through. *)
Lemma AddStartupEntry_success_inv (entry : StartupEntry) (registryType : StartupRegistryType)
  (w w' : World) :
  AddStartupEntry entry registryType w = (w', None) ->
  let keyPath := (getRegistryPath registryType).1 in
  let rootKey := (getRegistryPath registryType).2 in
  exists fullPath values,
    Name entry <> "" /\
    filepath.Abs w (Command entry) = inl fullPath /\
    os.IsNotExist (os.Stat w fullPath) = false /\
    reg_fault w (OpOpen rootKey keyPath registry.ALL_ACCESS) = None /\
    reg_fault w (OpSetValue rootKey keyPath (Name entry) fullPath) = None /\
    reg_keys w !! (rootKey, keyPath) = Some values /\
    w' = with_keys w (<[(rootKey, keyPath) := <[Name entry := SZ fullPath]> values]> (reg_keys w)).
Proof.
  intros Hadd keyPath rootKey. revert Hadd. unfold AddStartupEntry.
  destruct (String.eqb_spec (Name entry) "") as [|Hname]; [discriminate|].
  destruct (filepath.Abs w (Command entry)) as [fullPath|]; [|discriminate].
  destruct (os.IsNotExist _) eqn:Hstat; [discriminate|].
  subst keyPath rootKey.
  destruct (getRegistryPath registryType) as [keyPath rootKey]. cbn [fst snd].
  unfold registry.OpenKey.
  destruct (reg_fault w (OpOpen rootKey keyPath registry.ALL_ACCESS)) eqn:Hopen; [discriminate|].
  destruct (reg_keys w !! (rootKey, keyPath)) as [values|] eqn:Hvalues; [|discriminate].
  unfold registry.SetStringValue. cbn [registry.h_root registry.h_path].
  destruct (reg_fault w (OpSetValue rootKey keyPath (Name entry) fullPath)) eqn:Hset;
    [discriminate|].
  rewrite Hvalues. intros [= <-]. by exists fullPath, values.
Qed.

(** The other way round: when nothing stands in the way, [AddStartupEntry]
    sets the value. *)
Lemma AddStartupEntry_run (entry : StartupEntry) (registryType : StartupRegistryType)
  (w : World) (fullPath : string) (values : gmap string Value) :
  let keyPath := (getRegistryPath registryType).1 in
  let rootKey := (getRegistryPath registryType).2 in
  Name entry <> "" ->
  filepath.Abs w (Command entry) = inl fullPath ->
  os.IsNotExist (os.Stat w fullPath) = false ->
  reg_fault w (OpOpen rootKey keyPath registry.ALL_ACCESS) = None ->
  reg_fault w (OpSetValue rootKey keyPath (Name entry) fullPath) = None ->
  reg_keys w !! (rootKey, keyPath) = Some values ->
  AddStartupEntry entry registryType w =
    (with_keys w (<[(rootKey, keyPath) := <[Name entry := SZ fullPath]> values]> (reg_keys w)),
     None).
Proof.
  intros keyPath rootKey Hname Habs Hstat Hopen Hset Hvalues. unfold AddStartupEntry.
  destruct (String.eqb_spec (Name entry) "") as [|_]; [done|].
  rewrite Habs, Hstat. subst keyPath rootKey.
  destruct (getRegistryPath registryType) as [keyPath rootKey]. cbn [fst snd] in *.
  unfold registry.OpenKey. rewrite Hopen, Hvalues.
  unfold registry.SetStringValue. cbn [registry.h_root registry.h_path].
  by rewrite Hset, Hvalues.
Qed.

(** An [AddStartupEntry] that fails leaves the world as it was. *)
Lemma AddStartupEntry_failure (entry : StartupEntry) (registryType : StartupRegistryType)
  (w w' : World) (err : error) :
  AddStartupEntry entry registryType w = (w', Some err) -> w' = w.
Proof.
  unfold AddStartupEntry.
  destruct (String.eqb (Name entry) ""); [by intros [= <- _]|].
  destruct (filepath.Abs w (Command entry)) as [fullPath|]; [|by intros [= <- _]].
  destruct (os.IsNotExist _); [by intros [= <- _]|].
  destruct (getRegistryPath registryType) as [keyPath rootKey].
  destruct (registry.OpenKey w rootKey keyPath registry.ALL_ACCESS) as [k|];
    [|by intros [= <- _]].
  unfold registry.SetStringValue.
  destruct (reg_fault w _); [by intros [= <- _]|].
  destruct (reg_keys w !! _); [discriminate | by intros [= <- _]].
Qed.

(** X2. An [AddStartupEntry] that returns an error, whichever it is, returns
    the world it was given; so does a [RemoveStartupEntry] that returns an
    error. *)
Theorem failure_changes_nothing
  (entry : StartupEntry) (entryName : string) (registryType : StartupRegistryType)
  (w w' : World) (err : error) :
  (AddStartupEntry entry registryType w = (w', Some err) -> w' = w) /\
  (RemoveStartupEntry entryName registryType w = (w', Some err) -> w' = w).
Proof.
  split; [apply AddStartupEntry_failure | apply RemoveStartupEntry_failure].
Qed.

Lemma failure_changes_nothing_witness :
  AddStartupEntry app_entry AllUsersRunOnce sample_world
    = (sample_world, Some (AccessError (registry.ERROR_FILE_NOT_FOUND sample_world))) /\
  RemoveStartupEntry "Updater" CurrentUserRun locked_world
    = (locked_world, Some (DeleteError (ExtError "Access is denied." false))).
Proof.
  destruct (failure_changes_nothing app_entry "Updater" AllUsersRunOnce sample_world
              (AddStartupEntry app_entry AllUsersRunOnce sample_world).1
              (AccessError (registry.ERROR_FILE_NOT_FOUND sample_world))) as [Hadd _].
  destruct (failure_changes_nothing app_entry "Updater" CurrentUserRun locked_world
              (RemoveStartupEntry "Updater" CurrentUserRun locked_world).1
              (DeleteError (ExtError "Access is denied." false))) as [_ Hdel].
  split.
  - rewrite <- (Hadd eq_refl) at 2. reflexivity.
  - rewrite <- (Hdel eq_refl) at 2. reflexivity.
Defined.

(** ** Doing it twice, and undoing it *)

(** X3. Adding is idempotent: after an [AddStartupEntry] that returned no
    error, the same call again returns no error and leaves the world exactly
    as the first call left it. *)
Theorem AddStartupEntry_twice
  (entry : StartupEntry) (registryType : StartupRegistryType) (w w1 : World) :
  AddStartupEntry entry registryType w = (w1, None) ->
  AddStartupEntry entry registryType w1 = (w1, None).
Proof.
  intros Hadd.
  destruct (AddStartupEntry_success_inv _ _ _ _ Hadd)
    as (fullPath & values & Hname & Habs & Hstat & Hopen & Hset & Hvalues & ->).
  set (keyPath := (getRegistryPath registryType).1) in *.
  set (rootKey := (getRegistryPath registryType).2) in *.
  rewrite (AddStartupEntry_run entry registryType _ fullPath (<[Name entry := SZ fullPath]> values));
    try done.
  - fold keyPath rootKey. unfold with_keys; cbn.
    by rewrite insert_insert_eq, insert_insert_eq.
  - fold keyPath rootKey. cbn. apply lookup_insert_eq.
Qed.

Lemma AddStartupEntry_twice_witness :
  (AddStartupEntry app_entry CurrentUserRun sample_world).2 = None /\
  AddStartupEntry app_entry CurrentUserRun
    (AddStartupEntry app_entry CurrentUserRun sample_world).1
  = ((AddStartupEntry app_entry CurrentUserRun sample_world).1, None).
Proof.
  split; [reflexivity|].
  apply (AddStartupEntry_twice app_entry CurrentUserRun sample_world). reflexivity.
Defined.

(** The same machine with the messages of a system in German. *)
Definition german_message (code : Z) : string :=
  if (code =? 2)%Z then "Das System kann die angegebene Datei nicht finden."
  else if (code =? 5)%Z then "Zugriff verweigert"
  else if (code =? 6)%Z then "Das Handle ist ungueltig."
  else "winapi error".

Definition german_world : World :=
  {| fs_abs := sample_abs; fs_exists := sample_exists; fs_stat := sample_stat;
     sys_message := german_message;
     reg_keys := sample_keys; reg_fault := no_fault |}.

(** X4. Removing a value that is not there.  Take a name without a NUL byte
    and a startup type whose key exists and holds no value of that name, and
    let the system refuse neither to open the key nor to delete.  Then
    [RemoveStartupEntry] returns, with the world it was given, and the error
    depends on the text the system renders for [ERROR_FILE_NOT_FOUND]: the
    not-found error that names the entry and the key's path when the text has
    the phrase the function looks for, the delete error wrapping
    [ERROR_FILE_NOT_FOUND] when it has not. *)
Theorem RemoveStartupEntry_not_there
  (entryName : string) (registryType : StartupRegistryType) (w : World)
  (values : gmap string Value) :
  let keyPath := (getRegistryPath registryType).1 in
  let rootKey := (getRegistryPath registryType).2 in
  registry.has_NUL entryName = false ->
  reg_fault w (OpOpen rootKey keyPath registry.ALL_ACCESS) = None ->
  reg_fault w (OpDeleteValue rootKey keyPath entryName) = None ->
  reg_keys w !! (rootKey, keyPath) = Some values ->
  values !! entryName = None ->
  RemoveStartupEntry_panics entryName registryType w = false /\
  (strings.Contains (Error (registry.ERROR_FILE_NOT_FOUND w))
     "The system cannot find the file specified" = true ->
   RemoveStartupEntry entryName registryType w =
     (w, Some (EntryNotFoundError entryName keyPath))) /\
  (strings.Contains (Error (registry.ERROR_FILE_NOT_FOUND w))
     "The system cannot find the file specified" = false ->
   RemoveStartupEntry entryName registryType w =
     (w, Some (DeleteError (registry.ERROR_FILE_NOT_FOUND w)))).
Proof.
  intros keyPath rootKey Hnul Hopen Hdel Hvalues Hnone.
  split; [by apply RemoveStartupEntry_returns|].
  rewrite RemoveStartupEntry_store. fold keyPath rootKey.
  rewrite Hopen, Hvalues, Hdel, Hnone.
  split; by intros ->.
Qed.

Lemma RemoveStartupEntry_not_there_witness :
  RemoveStartupEntry "Ghost" CurrentUserRunOnce sample_world =
    (sample_world,
     Some (EntryNotFoundError "Ghost" "Software\Microsoft\Windows\CurrentVersion\RunOnce")) /\
  RemoveStartupEntry "Ghost" CurrentUserRunOnce german_world =
    (german_world, Some (DeleteError (registry.ERROR_FILE_NOT_FOUND german_world))).
Proof.
  split.
  - apply (RemoveStartupEntry_not_there "Ghost" CurrentUserRunOnce sample_world ∅);
      reflexivity.
  - apply (RemoveStartupEntry_not_there "Ghost" CurrentUserRunOnce german_world ∅);
      reflexivity.
Defined.

(** X5. Removing is not idempotent: after a [RemoveStartupEntry] that
    returned, and returned no error, the same call again returns an error and
    changes nothing.  The error is the not-found error when the text the system
    renders for [ERROR_FILE_NOT_FOUND] has the phrase the function looks for,
    and the delete error wrapping [ERROR_FILE_NOT_FOUND] when it has not. *)
Theorem RemoveStartupEntry_twice
  (entryName : string) (registryType : StartupRegistryType) (w w1 : World) :
  RemoveStartupEntry_panics entryName registryType w = false ->
  RemoveStartupEntry entryName registryType w = (w1, None) ->
  RemoveStartupEntry_panics entryName registryType w1 = false /\
  (strings.Contains (Error (registry.ERROR_FILE_NOT_FOUND w1))
     "The system cannot find the file specified" = true ->
   RemoveStartupEntry entryName registryType w1 =
     (w1, Some (EntryNotFoundError entryName (getRegistryPath registryType).1))) /\
  (strings.Contains (Error (registry.ERROR_FILE_NOT_FOUND w1))
     "The system cannot find the file specified" = false ->
   RemoveStartupEntry entryName registryType w1 =
     (w1, Some (DeleteError (registry.ERROR_FILE_NOT_FOUND w1)))).
Proof.
  intros Hreturns Hrun.
  assert (Hnul : registry.has_NUL entryName = false).
  { revert Hreturns Hrun. unfold RemoveStartupEntry_panics. rewrite RemoveStartupEntry_unfold.
    destruct (getRegistryPath registryType) as [keyPath rootKey]. cbn [fst snd].
    by destruct (registry.OpenKey w rootKey keyPath registry.ALL_ACCESS). }
  revert Hrun. rewrite RemoveStartupEntry_store.
  set (keyPath := (getRegistryPath registryType).1).
  set (rootKey := (getRegistryPath registryType).2).
  destruct (reg_fault w (OpOpen rootKey keyPath registry.ALL_ACCESS)) eqn:Hopen;
    [discriminate|].
  destruct (reg_keys w !! (rootKey, keyPath)) as [values|] eqn:Hvalues; [|discriminate].
  destruct (reg_fault w (OpDeleteValue rootKey keyPath entryName)) eqn:Hdel; [discriminate|].
  destruct (values !! entryName); [|discriminate].
  intros [= <-].
  apply (RemoveStartupEntry_not_there entryName registryType _ (delete entryName values));
    fold keyPath rootKey; cbn; try done.
  - apply lookup_insert_eq.
  - apply lookup_delete_eq.
Qed.

Lemma RemoveStartupEntry_twice_witness :
  (RemoveStartupEntry "Updater" CurrentUserRun sample_world).2 = None /\
  (RemoveStartupEntry "Updater" CurrentUserRun
     (RemoveStartupEntry "Updater" CurrentUserRun sample_world).1).2
  = Some (EntryNotFoundError "Updater" "Software\Microsoft\Windows\CurrentVersion\Run") /\
  (RemoveStartupEntry "Updater" CurrentUserRun
     (RemoveStartupEntry "Updater" CurrentUserRun german_world).1).2
  = Some (DeleteError (registry.ERROR_FILE_NOT_FOUND german_world)).
Proof.
  split; [reflexivity|].
  destruct (RemoveStartupEntry_twice "Updater" CurrentUserRun sample_world
              (RemoveStartupEntry "Updater" CurrentUserRun sample_world).1 eq_refl eq_refl)
    as (_ & Hen & _).
  destruct (RemoveStartupEntry_twice "Updater" CurrentUserRun german_world
              (RemoveStartupEntry "Updater" CurrentUserRun german_world).1 eq_refl eq_refl)
    as (_ & _ & Hde).
  split.
  - rewrite (Hen eq_refl). reflexivity.
  - rewrite (Hde eq_refl). reflexivity.
Defined.

(** X6. Adding and then removing: after an [AddStartupEntry] that returned no
    error, a [RemoveStartupEntry] of the entry's name for the same startup
    type returns no error unless the system refuses the delete; and when the
    name was not under the key before the add, the registry is back to what it
    was: the world after the two calls is the world before them. *)
Theorem add_then_remove
  (entry : StartupEntry) (registryType : StartupRegistryType) (w w1 : World) :
  let keyPath := (getRegistryPath registryType).1 in
  let rootKey := (getRegistryPath registryType).2 in
  AddStartupEntry entry registryType w = (w1, None) ->
  reg_fault w (OpDeleteValue rootKey keyPath (Name entry)) = None ->
  (RemoveStartupEntry (Name entry) registryType w1).2 = None /\
  value_at (RemoveStartupEntry (Name entry) registryType w1).1 rootKey keyPath (Name entry)
    = None /\
  (value_at w rootKey keyPath (Name entry) = None ->
   (RemoveStartupEntry (Name entry) registryType w1).1 = w).
Proof.
  intros keyPath rootKey Hadd Hdel.
  destruct (AddStartupEntry_success_inv _ _ _ _ Hadd)
    as (fullPath & values & _ & _ & _ & Hopen & _ & Hvalues & ->).
  fold keyPath rootKey in Hopen, Hvalues |- *.
  rewrite RemoveStartupEntry_store. fold keyPath rootKey. cbn.
  rewrite Hopen, Hdel, !lookup_insert_eq. cbn.
  rewrite insert_insert_eq, delete_insert_eq.
  split; [done|]. split.
  - unfold value_at; cbn. rewrite lookup_insert_eq. apply lookup_delete_eq.
  - unfold value_at. rewrite Hvalues. intros Hnone.
    rewrite delete_id by done.
    rewrite (insert_id (reg_keys w) (rootKey, keyPath) values Hvalues).
    unfold with_keys; cbn. by destruct w.
Qed.

Lemma add_then_remove_witness :
  (AddStartupEntry app_entry CurrentUserRun sample_world).2 = None /\
  RemoveStartupEntry "TestApp" CurrentUserRun
    (AddStartupEntry app_entry CurrentUserRun sample_world).1
  = (sample_world, None).
Proof.
  split; [reflexivity|].
  destruct (add_then_remove app_entry CurrentUserRun sample_world
              (AddStartupEntry app_entry CurrentUserRun sample_world).1 eq_refl eq_refl)
    as (Hnil & _ & Hback).
  rewrite (surjective_pairing (RemoveStartupEntry _ _ _)).
  change (Name app_entry) with "TestApp" in Hnil, Hback.
  rewrite Hnil, (Hback eq_refl). reflexivity.
Defined.

(** ** Removing from every startup type: what happens to the store *)

(** The system refuses neither to open the key of a startup type for writing
    nor to delete the named value under it. *)
Definition removal_allowed (w : World) (entryName : string)
  (registryType : StartupRegistryType) : Prop :=
  reg_fault w (OpOpen (getRegistryPath registryType).2 (getRegistryPath registryType).1
                 registry.ALL_ACCESS) = None /\
  reg_fault w (OpDeleteValue (getRegistryPath registryType).2
                 (getRegistryPath registryType).1 entryName) = None.

(** [w'] is [w] except that values called [entryName] may be gone. *)
Definition only_removes (entryName : string) (w w' : World) : Prop :=
  fs_abs w' = fs_abs w /\ fs_stat w' = fs_stat w /\ reg_fault w' = reg_fault w /\
  dom (reg_keys w') = dom (reg_keys w) /\
  forall root path name,
    value_at w' root path name = value_at w root path name \/
    (name = entryName /\ value_at w' root path name = None).

Lemma only_removes_refl (entryName : string) (w : World) : only_removes entryName w w.
Proof. repeat split. intros; by left. Qed.

Lemma only_removes_trans (entryName : string) (w w1 w2 : World) :
  only_removes entryName w w1 -> only_removes entryName w1 w2 -> only_removes entryName w w2.
Proof.
  intros (Ha & Hs & Hf & Hd & Hv) (Ha' & Hs' & Hf' & Hd' & Hv').
  repeat split; try congruence.
  intros root path name.
  destruct (Hv' root path name) as [E'|[-> E']]; [|by right].
  destruct (Hv root path name) as [E|[-> E]]; [left | right; split]; congruence.
Qed.

Lemma RemoveStartupEntry_only_removes (entryName : string)
  (registryType : StartupRegistryType) (w : World) :
  only_removes entryName w (RemoveStartupEntry entryName registryType w).1.
Proof.
  destruct (RemoveStartupEntry entryName registryType w) as [w' [err|]] eqn:Hrun; cbn.
  - apply RemoveStartupEntry_failure in Hrun as ->. apply only_removes_refl.
  - apply RemoveStartupEntry_success in Hrun as (values & Hvalues & _ & ->).
    repeat split.
    + cbn. apply dom_insert_lookup_L. eauto.
    + intros root path name. rewrite value_at_with_keys.
      destruct (decide (_ = (root, path))) as [Hkey|]; [|by left].
      injection Hkey as <- <-. unfold value_at. rewrite Hvalues.
      destruct (decide (name = entryName)) as [->|Hne].
      * right. split; [done | apply lookup_delete_eq].
      * left. by apply lookup_delete_ne.
Qed.

Lemma removeEach_cons (entryName : string) (registryType : StartupRegistryType)
  (types : list StartupRegistryType) (w : World) :
  removeEach entryName (registryType :: types) w =
    ((removeEach entryName types (RemoveStartupEntry entryName registryType w).1).1,
     (RemoveStartupEntry entryName registryType w).2 ::
     (removeEach entryName types (RemoveStartupEntry entryName registryType w).1).2).
Proof.
  cbn [removeEach]. destruct (RemoveStartupEntry entryName registryType w) as [w1 r]. cbn.
  by destruct (removeEach entryName types w1).
Qed.

Lemma removeEach_only_removes (entryName : string) (types : list StartupRegistryType) :
  forall w, only_removes entryName w (removeEach entryName types w).1.
Proof.
  induction types as [|t types IH]; intros w.
  - apply only_removes_refl.
  - rewrite removeEach_cons. cbn [fst].
    eapply only_removes_trans; [apply RemoveStartupEntry_only_removes | apply IH].
Qed.

(** One removal that is allowed leaves no value of that name under its key. *)
Lemma RemoveStartupEntry_clears (entryName : string) (registryType : StartupRegistryType)
  (w : World) :
  removal_allowed w entryName registryType ->
  value_at (RemoveStartupEntry entryName registryType w).1
    (getRegistryPath registryType).2 (getRegistryPath registryType).1 entryName = None.
Proof.
  intros [Hopen Hdel]. rewrite RemoveStartupEntry_store, Hopen.
  destruct (reg_keys w !! _) as [values|] eqn:Hvalues.
  - rewrite Hdel. destruct (values !! entryName) eqn:Hname; cbn [fst].
    + rewrite value_at_with_keys, decide_True by done. apply lookup_delete_eq.
    + unfold value_at. by rewrite Hvalues.
  - cbn [fst]. unfold value_at. by rewrite Hvalues.
Qed.

Lemma removeEach_clears (entryName : string) (registryType : StartupRegistryType)
  (types : list StartupRegistryType) :
  forall w,
    registryType ∈ types ->
    removal_allowed w entryName registryType ->
    value_at (removeEach entryName types w).1
      (getRegistryPath registryType).2 (getRegistryPath registryType).1 entryName = None.
Proof.
  induction types as [|t types IH]; intros w Hin Hallowed.
  - by apply elem_of_nil in Hin.
  - rewrite removeEach_cons. cbn [fst].
    pose proof (RemoveStartupEntry_only_removes entryName t w) as Hstep.
    apply elem_of_cons in Hin as [->|Hin].
    + pose proof (RemoveStartupEntry_clears entryName t w Hallowed) as Hgone.
      destruct (removeEach_only_removes entryName types
                  (RemoveStartupEntry entryName t w).1) as (_ & _ & _ & _ & Hv).
      destruct (Hv (getRegistryPath t).2 (getRegistryPath t).1 entryName) as [E|[_ E]];
        congruence.
    + apply IH; [done|]. destruct Hstep as (_ & _ & Hf & _). unfold removal_allowed.
      by rewrite Hf.
Qed.

(** When every removal fails, the world is the one given. *)
Lemma removeEach_all_failed (entryName : string) (types : list StartupRegistryType) :
  forall w,
    existsb succeeded (removeEach entryName types w).2 = false ->
    (removeEach entryName types w).1 = w.
Proof.
  induction types as [|t types IH]; intros w; [done|].
  rewrite removeEach_cons. cbn [fst snd existsb]. intros H.
  apply orb_false_iff in H as [Hfirst Hrest].
  destruct (RemoveStartupEntry entryName t w) as [w1 [err|]] eqn:Hrun; [|discriminate].
  apply RemoveStartupEntry_failure in Hrun as ->. by apply IH.
Qed.

(** When the value is under none of the keys, every removal fails. *)
Lemma removeEach_absent (entryName : string) (types : list StartupRegistryType) (w : World) :
  (forall t, t ∈ types ->
     value_at w (getRegistryPath t).2 (getRegistryPath t).1 entryName = None) ->
  existsb succeeded (removeEach entryName types w).2 = false.
Proof.
  induction types as [|t types IH]; intros Habsent; [done|].
  rewrite removeEach_cons. cbn [snd existsb].
  destruct (RemoveStartupEntry_absent entryName t w) as [Hw Hr];
    [apply Habsent, list_elem_of_here|].
  rewrite Hw. apply orb_false_iff. split.
  - by destruct (RemoveStartupEntry entryName t w).2.
  - apply IH. intros t' Hin. by apply Habsent, list_elem_of_further.
Qed.

Lemma lastError_failed (outcomes : list (option error)) :
  forall d,
    existsb succeeded outcomes = false -> outcomes <> [] ->
    is_Some (lastError outcomes d).
Proof.
  induction outcomes as [|r outcomes IH]; intros d Hfailed Hne; [done|].
  cbn [existsb] in Hfailed. apply orb_false_iff in Hfailed as [Hr Hrest].
  destruct r as [err|]; [|discriminate]. unfold lastError. cbn [fold_left].
  destruct outcomes as [|r' outcomes']; [cbn; eauto|].
  by apply IH.
Qed.

(** [SafeRemoveStartupEntry] in terms of the four attempts. *)
Lemma SafeRemoveStartupEntry_removeEach (entryName : string) (w : World) :
  (SafeRemoveStartupEntry entryName w).1 = (removeEach entryName registryTypes w).1 /\
  ((SafeRemoveStartupEntry entryName w).2 = None <->
   existsb succeeded (removeEach entryName registryTypes w).2 = true) /\
  (existsb succeeded (removeEach entryName registryTypes w).2 = false ->
   exists lastErr,
     (SafeRemoveStartupEntry entryName w).2 = Some (AggregateNotFoundError entryName lastErr)).
Proof.
  unfold SafeRemoveStartupEntry. rewrite safeRemove_loop. cbn [orb].
  destruct (existsb succeeded (removeEach entryName registryTypes w).2) eqn:Hany;
    cbn [negb fst snd].
  - split; [done|]. split; [done | discriminate].
  - split; [done|]. split; [split; discriminate|]. intros _.
    destruct (lastError_failed (removeEach entryName registryTypes w).2 None Hany)
      as [lastErr ->].
    + unfold registryTypes. rewrite removeEach_cons. discriminate.
    + by exists lastErr.
Qed.

(** X7. When the name has no NUL byte and no key of the four startup types
    holds a value of that name, [SafeRemoveStartupEntry] returns, with the
    aggregate error and the world it was given.  Conversely, when it returns
    no error, one of the four keys held a value of that name. *)
Theorem SafeRemoveStartupEntry_nothing_there (entryName : string) (w : World) :
  (registry.has_NUL entryName = false ->
   (forall t, t ∈ [CurrentUserRun; CurrentUserRunOnce; AllUsersRun; AllUsersRunOnce] ->
      value_at w (getRegistryPath t).2 (getRegistryPath t).1 entryName = None) ->
   SafeRemoveStartupEntry_panics entryName w = false /\
   exists lastErr,
     SafeRemoveStartupEntry entryName w =
       (w, Some (AggregateNotFoundError entryName lastErr))) /\
  ((SafeRemoveStartupEntry entryName w).2 = None ->
   exists t, t ∈ [CurrentUserRun; CurrentUserRunOnce; AllUsersRun; AllUsersRunOnce] /\
     is_Some (value_at w (getRegistryPath t).2 (getRegistryPath t).1 entryName)).
Proof.
  fold registryTypes.
  destruct (SafeRemoveStartupEntry_removeEach entryName w) as (Hworld & Hnil & Herr).
  assert (Hthere : (forall t, t ∈ registryTypes ->
             value_at w (getRegistryPath t).2 (getRegistryPath t).1 entryName = None) ->
           exists lastErr,
             SafeRemoveStartupEntry entryName w =
               (w, Some (AggregateNotFoundError entryName lastErr))).
  { intros Habsent. apply removeEach_absent in Habsent.
    destruct (Herr Habsent) as [lastErr Hlast]. exists lastErr.
    rewrite (surjective_pairing (SafeRemoveStartupEntry entryName w)).
    by rewrite Hlast, Hworld, removeEach_all_failed. }
  split; [intros Hnul Habsent; split;
          [by apply removeEach_returns | by apply Hthere]|].
  intros Hnone.
  destruct (decide (Exists (fun t => is_Some (value_at w (getRegistryPath t).2
                                            (getRegistryPath t).1 entryName))
                      registryTypes)) as [Hex|Hnex].
  - apply Exists_exists in Hex as (t & Hin & Hsome). eauto.
  - apply not_Exists_Forall in Hnex; [|solve_decision].
    destruct Hthere as [lastErr Hrun].
    + intros t Hin. eapply Forall_forall in Hnex; [|exact Hin]. cbn in Hnex.
      by destruct (value_at w _ _ entryName); [destruct Hnex; eauto|].
    + rewrite Hrun in Hnone. discriminate.
Qed.

Lemma SafeRemoveStartupEntry_nothing_there_witness :
  (exists lastErr,
     SafeRemoveStartupEntry "Ghost" sample_world =
       (sample_world, Some (AggregateNotFoundError "Ghost" lastErr))) /\
  (exists t, t ∈ [CurrentUserRun; CurrentUserRunOnce; AllUsersRun; AllUsersRunOnce] /\
     is_Some (value_at sample_world (getRegistryPath t).2 (getRegistryPath t).1 "Agent")).
Proof.
  split.
  - apply (proj1 (SafeRemoveStartupEntry_nothing_there "Ghost" sample_world));
      [reflexivity|].
    intros t Hin.
    repeat (apply elem_of_cons in Hin as [->|Hin]; [reflexivity|]).
    by apply elem_of_nil in Hin.
  - apply (proj2 (SafeRemoveStartupEntry_nothing_there "Agent" sample_world)).
    reflexivity.
Defined.

(** X8. Whatever it returns, [SafeRemoveStartupEntry] touches only values of
    the given name: it creates and deletes no key, a value of another name is
    what it was under every key, and a value of the given name is either what
    it was or gone.  When it returns an error, the world is the one it was
    given. *)
Theorem SafeRemoveStartupEntry_frame (entryName : string) (w : World) :
  dom (reg_keys (SafeRemoveStartupEntry entryName w).1) = dom (reg_keys w) /\
  (forall root path name,
     name <> entryName ->
     value_at (SafeRemoveStartupEntry entryName w).1 root path name
       = value_at w root path name) /\
  (forall root path,
     value_at (SafeRemoveStartupEntry entryName w).1 root path entryName
       = value_at w root path entryName \/
     value_at (SafeRemoveStartupEntry entryName w).1 root path entryName = None) /\
  forall err,
    (SafeRemoveStartupEntry entryName w).2 = Some err ->
    (SafeRemoveStartupEntry entryName w).1 = w.
Proof.
  destruct (SafeRemoveStartupEntry_removeEach entryName w) as (Hworld & Hnil & _).
  rewrite Hworld.
  destruct (removeEach_only_removes entryName registryTypes w) as (_ & _ & _ & Hdom & Hv).
  split; [exact Hdom|]. split; [|split].
  - intros root path name Hne. by destruct (Hv root path name) as [E|[? _]].
  - intros root path. destruct (Hv root path entryName) as [E|[_ E]]; eauto.
  - intros err Herr. apply removeEach_all_failed.
    destruct (existsb succeeded _) eqn:Hany; [|done].
    assert ((SafeRemoveStartupEntry entryName w).2 = None) by (by apply Hnil).
    congruence.
Qed.

Lemma SafeRemoveStartupEntry_frame_witness :
  (SafeRemoveStartupEntry "Updater" sample_world).2 = None /\
  value_at (SafeRemoveStartupEntry "Updater" sample_world).1
    registry.LOCAL_MACHINE "SOFTWARE\Microsoft\Windows\CurrentVersion\Run" "Agent"
  = Some (EXPAND_SZ "%ProgramFiles%\agent.exe") /\
  (SafeRemoveStartupEntry "Updater" locked_world).1 = locked_world.
Proof.
  split; [reflexivity|]. split.
  - destruct (SafeRemoveStartupEntry_frame "Updater" sample_world) as (_ & Hother & _).
    rewrite Hother; [reflexivity | discriminate].
  - destruct (SafeRemoveStartupEntry_frame "Updater" locked_world) as (_ & _ & _ & Hfail).
    eapply Hfail. reflexivity.
Defined.

(** After the four attempts, a key where removal is allowed holds no value of
    the name, and when it held one, one attempt succeeded. *)
Lemma safeRemove_clears (entryName : string) (registryType : StartupRegistryType) (w : World) :
  registryType ∈ registryTypes ->
  removal_allowed w entryName registryType ->
  value_at (SafeRemoveStartupEntry entryName w).1
    (getRegistryPath registryType).2 (getRegistryPath registryType).1 entryName = None /\
  (is_Some (value_at w (getRegistryPath registryType).2
              (getRegistryPath registryType).1 entryName) ->
   (SafeRemoveStartupEntry entryName w).2 = None).
Proof.
  intros Hin Hallowed.
  destruct (SafeRemoveStartupEntry_removeEach entryName w) as (Hworld & Hnil & _).
  pose proof (removeEach_clears entryName registryType registryTypes w Hin Hallowed) as Hgone.
  rewrite Hworld. split; [exact Hgone|].
  intros [v Hv]. apply Hnil.
  destruct (existsb succeeded _) eqn:Hany; [done|].
  rewrite (removeEach_all_failed _ _ _ Hany) in Hgone. congruence.
Qed.

(** X9. For each of the four startup types where the system refuses neither
    to open the key for writing nor to delete the value, after
    [SafeRemoveStartupEntry] the key holds no value of the given name; and
    when the key did hold one, [SafeRemoveStartupEntry] returns no error. *)
Theorem SafeRemoveStartupEntry_clears
  (entryName : string) (registryType : StartupRegistryType) (w : World) :
  registryType ∈ [CurrentUserRun; CurrentUserRunOnce; AllUsersRun; AllUsersRunOnce] ->
  removal_allowed w entryName registryType ->
  value_at (SafeRemoveStartupEntry entryName w).1
    (getRegistryPath registryType).2 (getRegistryPath registryType).1 entryName = None /\
  (is_Some (value_at w (getRegistryPath registryType).2
              (getRegistryPath registryType).1 entryName) ->
   (SafeRemoveStartupEntry entryName w).2 = None).
Proof. exact (safeRemove_clears entryName registryType w). Qed.

Lemma SafeRemoveStartupEntry_clears_witness :
  value_at (SafeRemoveStartupEntry "Agent" sample_world).1
    registry.LOCAL_MACHINE "SOFTWARE\Microsoft\Windows\CurrentVersion\Run" "Agent" = None /\
  (SafeRemoveStartupEntry "Agent" sample_world).2 = None.
Proof.
  assert (Hin : AllUsersRun ∈ [CurrentUserRun; CurrentUserRunOnce; AllUsersRun; AllUsersRunOnce])
    by (apply list_elem_of_further, list_elem_of_further, list_elem_of_here).
  destruct (SafeRemoveStartupEntry_clears "Agent" AllUsersRun sample_world Hin
              (conj eq_refl eq_refl)) as [Hgone Hnil].
  split; [exact Hgone|]. apply Hnil. eexists. reflexivity.
Defined.

(** ** Listing after removing *)

(** What a listing that returned no error says of a name. *)
Lemma ListStartupEntries_lookup (registryType : StartupRegistryType) (w : World)
  (entries : gmap string string) (name : string) :
  ListStartupEntries registryType w = (entries, None) ->
  entries !! name =
    value_at w (getRegistryPath registryType).2 (getRegistryPath registryType).1 name
      ≫= string_of.
Proof.
  rewrite ListStartupEntries_listing. unfold listing, value_at.
  destruct (reg_fault w (OpOpen _ _ _)); [discriminate|].
  destruct (reg_keys w !! _) as [values|]; [|discriminate].
  destruct (reg_fault w (OpReadValueNames _ _)); [discriminate|].
  intros [= <-]. apply lookup_omap.
Qed.

(** Every integer resolves as one of the four startup types does. *)
Lemma getRegistryPath_among (registryType : StartupRegistryType) :
  exists t, t ∈ registryTypes /\ getRegistryPath registryType = getRegistryPath t.
Proof.
  unfold getRegistryPath at 1, registryTypes.
  destruct (Z.eqb_spec registryType CurrentUserRun);
    [exists CurrentUserRun; split; [|done]; apply list_elem_of_here|].
  destruct (Z.eqb_spec registryType CurrentUserRunOnce);
    [exists CurrentUserRunOnce; split; [|done];
     apply list_elem_of_further, list_elem_of_here|].
  destruct (Z.eqb_spec registryType AllUsersRun);
    [exists AllUsersRun; split; [|done];
     apply list_elem_of_further, list_elem_of_further, list_elem_of_here|].
  destruct (Z.eqb_spec registryType AllUsersRunOnce);
    [exists AllUsersRunOnce; split; [|done];
     do 3 apply list_elem_of_further; apply list_elem_of_here|].
  exists CurrentUserRun; split; [|done]; apply list_elem_of_here.
Qed.

(** X10. After [SafeRemoveStartupEntry], whatever it returned,
    [ListAllStartupEntries] shows the name under no startup type where the
    system refuses neither to open the key for writing nor to delete the
    value. *)
Theorem ListAllStartupEntries_after_SafeRemove
  (entryName : string) (registryType : StartupRegistryType) (w : World)
  (entries : gmap string string) :
  removal_allowed w entryName registryType ->
  (ListAllStartupEntries (SafeRemoveStartupEntry entryName w).1).1 !! registryType
    = Some entries ->
  entries !! entryName = None.
Proof.
  intros Hallowed. unfold ListAllStartupEntries. cbn [fst].
  rewrite listAll_loop, lookup_empty.
  destruct (decide (registryType ∈ registryTypes)) as [Hin|]; [|discriminate].
  destruct (ListStartupEntries registryType _) as [entries' [err|]] eqn:Hlist; [discriminate|].
  destruct (0 <? size entries')%nat; [|discriminate]. intros [= ->].
  rewrite (ListStartupEntries_lookup _ _ _ entryName Hlist).
  by rewrite (proj1 (safeRemove_clears entryName registryType w Hin Hallowed)).
Qed.

Lemma ListAllStartupEntries_after_SafeRemove_witness :
  exists entries,
    (ListAllStartupEntries
       (SafeRemoveStartupEntry "TestApp"
          (AddStartupEntry app_entry CurrentUserRun sample_world).1).1).1 !! CurrentUserRun
      = Some entries /\
    entries !! "Updater" = Some "C:\Tools\updater.exe" /\
    entries !! "TestApp" = None.
Proof.
  eexists. split; [reflexivity|]. split; [reflexivity|].
  apply (ListAllStartupEntries_after_SafeRemove "TestApp" CurrentUserRun
           (AddStartupEntry app_entry CurrentUserRun sample_world).1).
  - split; reflexivity.
  - reflexivity.
Defined.

(** X11. The round trip of the package: after an [AddStartupEntry] that
    returned no error, for any startup type, [SafeRemoveStartupEntry] of the
    entry's name returns no error unless the system refuses to delete the
    value; the value is then gone from the key, and a listing of the same
    startup type that returns no error does not have the name. *)
Theorem add_then_SafeRemove
  (entry : StartupEntry) (registryType : StartupRegistryType) (w w1 : World) :
  let keyPath := (getRegistryPath registryType).1 in
  let rootKey := (getRegistryPath registryType).2 in
  AddStartupEntry entry registryType w = (w1, None) ->
  reg_fault w (OpDeleteValue rootKey keyPath (Name entry)) = None ->
  (SafeRemoveStartupEntry (Name entry) w1).2 = None /\
  value_at (SafeRemoveStartupEntry (Name entry) w1).1 rootKey keyPath (Name entry) = None /\
  forall entries,
    ListStartupEntries registryType (SafeRemoveStartupEntry (Name entry) w1).1
      = (entries, None) ->
    entries !! Name entry = None.
Proof.
  intros keyPath rootKey Hadd Hdel.
  destruct (AddStartupEntry_success_inv _ _ _ _ Hadd)
    as (fullPath & values & _ & _ & _ & Hopen & _ & Hvalues & ->).
  fold keyPath rootKey in Hopen, Hvalues |- *.
  set (w1 := with_keys w _).
  destruct (getRegistryPath_among registryType) as (t & Hin & Hsame).
  assert (Hallowed : removal_allowed w1 (Name entry) t).
  { unfold removal_allowed. rewrite <- Hsame. by split. }
  assert (Hthere : is_Some (value_at w1 rootKey keyPath (Name entry))).
  { unfold w1. rewrite value_at_with_keys, decide_True by done.
    rewrite lookup_insert_eq. eauto. }
  destruct (safeRemove_clears (Name entry) t w1 Hin Hallowed) as [Hgone Hnil].
  rewrite <- Hsame in Hgone, Hnil. fold keyPath rootKey in Hgone, Hnil.
  split; [by apply Hnil|]. split; [exact Hgone|].
  intros entries Hlist.
  rewrite (ListStartupEntries_lookup _ _ _ (Name entry) Hlist).
  fold keyPath rootKey. by rewrite Hgone.
Qed.

Lemma add_then_SafeRemove_witness :
  (AddStartupEntry app_entry CurrentUserRun sample_world).2 = None /\
  (SafeRemoveStartupEntry "TestApp"
     (AddStartupEntry app_entry CurrentUserRun sample_world).1).2 = None /\
  (ListStartupEntries CurrentUserRun
     (SafeRemoveStartupEntry "TestApp"
        (AddStartupEntry app_entry CurrentUserRun sample_world).1).1).1 !! "TestApp" = None.
Proof.
  split; [reflexivity|].
  destruct (add_then_SafeRemove app_entry CurrentUserRun sample_world
              (AddStartupEntry app_entry CurrentUserRun sample_world).1 eq_refl eq_refl)
    as (Hnil & _ & Hlist).
  split; [exact Hnil|].
  apply (Hlist _). reflexivity.
Defined.

(** ** Startup types: the fallback, and their independence *)

Lemma getRegistryPath_default (registryType : StartupRegistryType) :
  registryType <> CurrentUserRun -> registryType <> CurrentUserRunOnce ->
  registryType <> AllUsersRun -> registryType <> AllUsersRunOnce ->
  getRegistryPath registryType = getRegistryPath CurrentUserRun.
Proof.
  intros H0 H1 H2 H3. unfold getRegistryPath at 1.
  destruct (Z.eqb_spec registryType CurrentUserRun); [done|].
  destruct (Z.eqb_spec registryType CurrentUserRunOnce); [done|].
  destruct (Z.eqb_spec registryType AllUsersRun); [done|].
  destruct (Z.eqb_spec registryType AllUsersRunOnce); done.
Qed.

(** The four startup types have four different keys. *)
Lemma getRegistryPath_inj (s t : StartupRegistryType) :
  s ∈ registryTypes -> t ∈ registryTypes ->
  getRegistryPath s = getRegistryPath t -> s = t.
Proof.
  unfold registryTypes. intros Hs Ht.
  repeat (apply elem_of_cons in Hs as [->|Hs]);
    try (by apply elem_of_nil in Hs);
    repeat (apply elem_of_cons in Ht as [->|Ht]);
    try (by apply elem_of_nil in Ht);
    try reflexivity; intros H; vm_compute in H; discriminate.
Qed.

(** A listing depends on the refusals and on the values of its own key. *)
Lemma ListStartupEntries_same_key (registryType : StartupRegistryType) (w w' : World) :
  sys_message w' = sys_message w ->
  reg_fault w' = reg_fault w ->
  reg_keys w' !! ((getRegistryPath registryType).2, (getRegistryPath registryType).1)
    = reg_keys w !! ((getRegistryPath registryType).2, (getRegistryPath registryType).1) ->
  ListStartupEntries registryType w' = ListStartupEntries registryType w.
Proof.
  intros Hm Hf Hk. rewrite !ListStartupEntries_listing.
  unfold listing, registry.ERROR_FILE_NOT_FOUND. by rewrite Hm, Hf, Hk.
Qed.

(** X12. An integer that is none of the four constants is treated as
    [CurrentUserRun] by the three operations that take a startup type: adding,
    removing and listing with it do exactly what they do with
    [CurrentUserRun]. *)
Theorem unknown_type_is_CurrentUserRun
  (entry : StartupEntry) (entryName : string) (registryType : StartupRegistryType)
  (w : World) :
  registryType <> CurrentUserRun -> registryType <> CurrentUserRunOnce ->
  registryType <> AllUsersRun -> registryType <> AllUsersRunOnce ->
  AddStartupEntry entry registryType w = AddStartupEntry entry CurrentUserRun w /\
  RemoveStartupEntry entryName registryType w = RemoveStartupEntry entryName CurrentUserRun w /\
  ListStartupEntries registryType w = ListStartupEntries CurrentUserRun w.
Proof.
  intros H0 H1 H2 H3.
  pose proof (getRegistryPath_default registryType H0 H1 H2 H3) as Hpath.
  unfold AddStartupEntry, RemoveStartupEntry, ListStartupEntries.
  by rewrite Hpath.
Qed.

Lemma unknown_type_is_CurrentUserRun_witness :
  (AddStartupEntry app_entry 42%Z sample_world).2 = None /\
  value_at (AddStartupEntry app_entry 42%Z sample_world).1
    registry.CURRENT_USER "Software\Microsoft\Windows\CurrentVersion\Run" "TestApp"
  = Some (SZ "C:\Work\app.exe") /\
  RemoveStartupEntry "Updater" (-1)%Z sample_world
  = RemoveStartupEntry "Updater" CurrentUserRun sample_world.
Proof.
  pose proof (unknown_type_is_CurrentUserRun app_entry "Updater" 42%Z sample_world
                ltac:(discriminate) ltac:(discriminate) ltac:(discriminate)
                ltac:(discriminate)) as (Hadd & _ & _).
  pose proof (unknown_type_is_CurrentUserRun app_entry "Updater" (-1)%Z sample_world
                ltac:(discriminate) ltac:(discriminate) ltac:(discriminate)
                ltac:(discriminate)) as (_ & Hdel & _).
  rewrite Hadd. split; [vm_compute; reflexivity|].
  split; [vm_compute; reflexivity | exact Hdel].
Defined.

(** X13. The four startup types do not interfere: adding to one of them, or
    removing from it, whatever the outcome, leaves what [ListStartupEntries]
    returns for each of the other three as it was. *)
Theorem other_types_untouched
  (entry : StartupEntry) (entryName : string) (s t : StartupRegistryType) (w : World) :
  s ∈ [CurrentUserRun; CurrentUserRunOnce; AllUsersRun; AllUsersRunOnce] ->
  t ∈ [CurrentUserRun; CurrentUserRunOnce; AllUsersRun; AllUsersRunOnce] ->
  s <> t ->
  ListStartupEntries t (AddStartupEntry entry s w).1 = ListStartupEntries t w /\
  ListStartupEntries t (RemoveStartupEntry entryName s w).1 = ListStartupEntries t w.
Proof.
  fold registryTypes. intros Hs Ht Hne.
  assert (Hkey : ((getRegistryPath s).2, (getRegistryPath s).1)
                 <> ((getRegistryPath t).2, (getRegistryPath t).1)).
  { intros [= H2 H1]. apply Hne, getRegistryPath_inj; [done..|].
    destruct (getRegistryPath s), (getRegistryPath t). cbn in *. congruence. }
  split.
  - destruct (AddStartupEntry entry s w) as [w' [err|]] eqn:Hadd; cbn [fst].
    + by apply AddStartupEntry_failure in Hadd as ->.
    + apply AddStartupEntry_success in Hadd as (fullPath & values & _ & _ & _ & ->).
      apply ListStartupEntries_same_key; [done..|]. cbn. by apply lookup_insert_ne.
  - destruct (RemoveStartupEntry entryName s w) as [w' [err|]] eqn:Hdel; cbn [fst].
    + by apply RemoveStartupEntry_failure in Hdel as ->.
    + apply RemoveStartupEntry_success in Hdel as (values & _ & _ & ->).
      apply ListStartupEntries_same_key; [done..|]. cbn. by apply lookup_insert_ne.
Qed.

Lemma other_types_untouched_witness :
  ListStartupEntries AllUsersRun (AddStartupEntry app_entry CurrentUserRun sample_world).1
    = ListStartupEntries AllUsersRun sample_world /\
  ListStartupEntries AllUsersRun (RemoveStartupEntry "Updater" CurrentUserRun sample_world).1
    = ListStartupEntries AllUsersRun sample_world.
Proof.
  apply (other_types_untouched app_entry "Updater" CurrentUserRun AllUsersRun sample_world).
  - apply list_elem_of_here.
  - apply list_elem_of_further, list_elem_of_further, list_elem_of_here.
  - discriminate.
Defined.

(** X14. What was added is listed: after an [AddStartupEntry] that returned no
    error, for any startup type, when the system refuses neither to open the
    key for reading nor to enumerate it, [ListAllStartupEntries] has, under the
    one of the four startup types that has the same key, a map with the
    entry's name at the normalized path of its command.  For an integer that
    is none of the four constants this is [CurrentUserRun]. *)
Theorem add_then_ListAll
  (entry : StartupEntry) (registryType : StartupRegistryType) (w w1 : World)
  (fullPath : string) :
  let keyPath := (getRegistryPath registryType).1 in
  let rootKey := (getRegistryPath registryType).2 in
  filepath.Abs w (Command entry) = inl fullPath ->
  AddStartupEntry entry registryType w = (w1, None) ->
  reg_fault w (OpOpen rootKey keyPath registry.QUERY_VALUE) = None ->
  reg_fault w (OpReadValueNames rootKey keyPath) = None ->
  exists t entries,
    t ∈ [CurrentUserRun; CurrentUserRunOnce; AllUsersRun; AllUsersRunOnce] /\
    getRegistryPath t = getRegistryPath registryType /\
    (ListAllStartupEntries w1).1 !! t = Some entries /\
    entries !! Name entry = Some fullPath.
Proof.
  intros keyPath rootKey Habs Hadd Hopen Henum.
  destruct (AddStartupEntry_success_inv _ _ _ _ Hadd)
    as (fullPath' & values & _ & Habs' & _ & _ & _ & Hvalues & ->).
  assert (fullPath' = fullPath) as -> by congruence.
  fold keyPath rootKey in Hvalues |- *.
  destruct (getRegistryPath_among registryType) as (t & Hin & Hsame).
  set (w1 := with_keys w _).
  set (entries := omap string_of (<[Name entry := SZ fullPath]> values)).
  assert (Hlist : ListStartupEntries t w1 = (entries, None)).
  { rewrite ListStartupEntries_listing. unfold listing. rewrite <- Hsame.
    fold keyPath rootKey. cbn. by rewrite Hopen, Henum, lookup_insert_eq. }
  assert (Hname : entries !! Name entry = Some fullPath).
  { unfold entries. by rewrite lookup_omap, lookup_insert_eq. }
  exists t, entries. split; [exact Hin|]. split; [done|]. split; [|exact Hname].
  unfold ListAllStartupEntries. cbn [fst].
  rewrite listAll_loop, lookup_empty, decide_True by exact Hin. rewrite Hlist.
  destruct (Nat.ltb_spec 0 (size entries)) as [_|Hzero]; [done|].
  assert (entries = ∅) as Hempty by (apply map_size_empty_iff; lia).
  rewrite Hempty, lookup_empty in Hname. discriminate.
Qed.

Lemma add_then_ListAll_witness :
  exists t entries,
    t ∈ [CurrentUserRun; CurrentUserRunOnce; AllUsersRun; AllUsersRunOnce] /\
    getRegistryPath t = getRegistryPath 42%Z /\
    (ListAllStartupEntries (AddStartupEntry app_entry 42%Z sample_world).1).1 !! t
      = Some entries /\
    entries !! "TestApp" = Some "C:\Work\app.exe".
Proof.
  apply (add_then_ListAll app_entry 42%Z sample_world
           (AddStartupEntry app_entry 42%Z sample_world).1 "C:\Work\app.exe");
    reflexivity.
Defined.

(** A pair whose error is [nil]. *)
Lemma surjective_pairing_None {A : Type} (p : A * option error) :
  p.2 = None -> p = (p.1, None).
Proof. destruct p as [a r]; cbn. by intros ->. Qed.

(** ** Listings before and after a change *)

(** X15. Adding acts on the listing as an insertion, removing as a deletion:
    when [ListStartupEntries] returns a map without error, then after an
    [AddStartupEntry] to the same startup type that returned no error it
    returns that map with the entry's name set to the normalized path, and
    after a [RemoveStartupEntry] that returned no error it returns that map
    without the name. *)
Theorem listing_after_change
  (entry : StartupEntry) (entryName : string) (registryType : StartupRegistryType)
  (w : World) (entries : gmap string string) :
  ListStartupEntries registryType w = (entries, None) ->
  (forall w1 fullPath,
     filepath.Abs w (Command entry) = inl fullPath ->
     AddStartupEntry entry registryType w = (w1, None) ->
     ListStartupEntries registryType w1 = (<[Name entry := fullPath]> entries, None)) /\
  (forall w1,
     RemoveStartupEntry entryName registryType w = (w1, None) ->
     ListStartupEntries registryType w1 = (delete entryName entries, None)).
Proof.
  rewrite ListStartupEntries_listing. unfold listing.
  set (keyPath := (getRegistryPath registryType).1).
  set (rootKey := (getRegistryPath registryType).2).
  destruct (reg_fault w (OpOpen rootKey keyPath registry.QUERY_VALUE)) eqn:Hopen;
    [discriminate|].
  destruct (reg_keys w !! (rootKey, keyPath)) as [values|] eqn:Hvalues; [|discriminate].
  destruct (reg_fault w (OpReadValueNames rootKey keyPath)) eqn:Henum; [discriminate|].
  intros [= <-]. split.
  - intros w1 fullPath Habs Hadd.
    apply AddStartupEntry_success in Hadd as (fullPath' & values' & _ & Habs' & Hvalues' & ->).
    assert (fullPath' = fullPath) as -> by congruence.
    fold keyPath rootKey in Hvalues' |- *.
    assert (values' = values) as -> by congruence.
    rewrite ListStartupEntries_listing. unfold listing. fold keyPath rootKey. cbn.
    rewrite Hopen, Henum, lookup_insert_eq. f_equal. by apply omap_insert_Some.
  - intros w1 Hdel.
    apply RemoveStartupEntry_success in Hdel as (values' & Hvalues' & _ & ->).
    fold keyPath rootKey in Hvalues' |- *.
    assert (values' = values) as -> by congruence.
    rewrite ListStartupEntries_listing. unfold listing. fold keyPath rootKey. cbn.
    rewrite Hopen, Henum, lookup_insert_eq. f_equal. apply omap_delete.
Qed.

Lemma listing_after_change_witness :
  ListStartupEntries CurrentUserRun (AddStartupEntry app_entry CurrentUserRun sample_world).1
    = (<["TestApp" := "C:\Work\app.exe"]> {[ "Updater" := "C:\Tools\updater.exe" ]}, None) /\
  ListStartupEntries CurrentUserRun (RemoveStartupEntry "Updater" CurrentUserRun sample_world).1
    = (delete "Updater" {[ "Updater" := "C:\Tools\updater.exe" ]}, None).
Proof.
  assert (Hlist : ListStartupEntries CurrentUserRun sample_world
                  = ({[ "Updater" := "C:\Tools\updater.exe" ]}, None))
    by (vm_compute; reflexivity).
  destruct (listing_after_change app_entry "Updater" CurrentUserRun sample_world
              {[ "Updater" := "C:\Tools\updater.exe" ]} Hlist) as [Hadd Hdel].
  split.
  - apply (Hadd _ "C:\Work\app.exe"); [reflexivity|].
    apply surjective_pairing_None. vm_compute. reflexivity.
  - apply Hdel. apply surjective_pairing_None. vm_compute. reflexivity.
Defined.
